(** * FitSync API gateway: a shallow embedding of [src/index.js]

    The gateway is an Express application.  Its middleware and its four
    composite endpoints are translated below as functions over JavaScript
    values; the libraries it calls (jsonwebtoken, axios, the backends behind
    it, [Date.parse] on strings that are not ISO dates, the text of numbers
    beyond 2^53, [process.env]) are parameters. *)

From Stdlib Require Import ZArith List String Ascii Bool Lia.
From Stdlib Require Import Numbers.DecimalString.
Import ListNotations.

Set Warnings "-register-all".

Local Open Scope string_scope.
Local Open Scope Z_scope.

(** ** JavaScript values

    What JSON bodies, decoded token payloads and request fields hold.
    Numbers are the integer-valued ones; strings are sequences of code units
    below 256.  Objects are the plain ones JSON gives: a field never holds a
    function. *)
Module JS.

Inductive value : Type :=
| VUndefined
| VNull
| VBool (b : bool)
| VNum (n : Z)
| VStr (s : string)
| VArr (items : list value)
| VObj (fields : list (string * value)).

Inductive jwt_failure : Type :=
| Expired | BadSignature | IssuerMismatch | AudienceMismatch | Malformed.

(** The body and status of an HTTP answer, as axios and Express see it. *)
Record response : Type := mkResponse { status : Z; data : value }.

(** What a [throw] carries: the two built-in errors the code can raise, the
    error of [jwt.verify], and the axios error, whose [response] is set only
    when the backend did answer. *)
Inductive thrown : Type :=
| TypeError
| RangeError
| JwtError (k : jwt_failure)
| AxiosError (resp : option response).

Inductive outcome (A : Type) : Type :=
| Ok (a : A)
| Throw (e : thrown).
Arguments Ok {A} a.
Arguments Throw {A} e.

(** ToBoolean. *)
Definition truthy (v : value) : bool :=
  match v with
  | VUndefined | VNull => false
  | VBool b => b
  | VNum n => negb (n =? 0)
  | VStr s => negb (String.eqb s "")
  | VArr _ | VObj _ => true
  end.

Fixpoint lookup (k : string) (fields : list (string * value)) : value :=
  match fields with
  | [] => VUndefined
  | (k', v) :: rest => if String.eqb k k' then v else lookup k rest
  end.

(** [v.k] for the property names the gateway reads ([data], [pagination],
    [total_count], [role], [id], [booking_date], [length], [response], the
    fields of a booking): reading a property of [undefined] or [null] throws,
    an object gives its own field, arrays and strings have [length]. *)
Definition get (v : value) (k : string) : outcome value :=
  match v with
  | VUndefined | VNull => Throw TypeError
  | VObj fields => Ok (lookup k fields)
  | VArr items =>
      Ok (if String.eqb k "length" then VNum (Z.of_nat (List.length items)) else VUndefined)
  | VStr s =>
      Ok (if String.eqb k "length" then VNum (Z.of_nat (String.length s)) else VUndefined)
  | VBool _ | VNum _ => Ok VUndefined
  end.

(** [v === 'literal']: only the same string is strictly equal to a string. *)
Definition strict_eq_str (v : value) (s : string) : bool :=
  match v with
  | VStr t => String.eqb t s
  | _ => false
  end.

(** [a || b] on values. *)
Definition or_else (a b : value) : value := if truthy a then a else b.

Definition Z_to_string (n : Z) : string := NilZero.string_of_int (Z.to_int n).

Fixpoint join (sep : string) (parts : list string) : string :=
  match parts with
  | [] => ""
  | [p] => p
  | p :: rest => p ++ sep ++ join sep rest
  end.

(** [Object.hasOwn(v, k)] on the fields of an object. *)
Definition has_own (k : string) (fields : list (string * value)) : bool :=
  existsb (fun kv => String.eqb k (fst kv)) fields.

Section Conversion.
(** Number::toString beyond 2^53, where a double no longer holds every
    integer and the digits printed are the shortest that read back as the
    same double, in exponent form from 10^21 on: left to the runtime. *)
Variable Number_toString_large : Z -> string.

(** Number::toString: up to 2^53 the digits of the integer. *)
Definition Number_toString (n : Z) : string :=
  if Z.abs n <=? 9007199254740992 then Z_to_string n else Number_toString_large n.

(** ToString, used by template literals and by [new Date(v)] on objects.
    An array is joined with commas.  An object is turned into a primitive by
    its [toString] method, then its [valueOf]: the inherited [toString] gives
    [[object Object]]; a field of the object's own under that name hides it
    and is no function, the inherited [valueOf] gives back the object, and
    the conversion ends in a TypeError. *)
Fixpoint ToString (v : value) : outcome string :=
  match v with
  | VUndefined => Ok "undefined"
  | VNull => Ok "null"
  | VBool true => Ok "true"
  | VBool false => Ok "false"
  | VNum n => Ok (Number_toString n)
  | VStr s => Ok s
  | VArr items =>
      match (fix parts (l : list value) : outcome (list string) :=
               match l with
               | [] => Ok []
               | x :: rest =>
                   match (match x with
                          | VUndefined | VNull => Ok ""
                          | _ => ToString x
                          end) with
                   | Throw e => Throw e
                   | Ok p =>
                       match parts rest with
                       | Throw e => Throw e
                       | Ok ps => Ok (p :: ps)
                       end
                   end
               end) items with
      | Throw e => Throw e
      | Ok ps => Ok (join "," ps)
      end
  | VObj fields =>
      if has_own "toString" fields then Throw TypeError else Ok "[object Object]"
  end.
End Conversion.

(** *** Numbers as [parseInt] gives them

    An integer or an infinity; NaN is kept apart. *)
Inductive number : Type :=
| Finite (n : Z)
| Infinity (negative : bool).

(** The double nearest to an integer, ties going to the even significand:
    the integer itself up to 2^53, a multiple of a power of two above, an
    infinity from 2^1024 - 2^970 on. *)
Definition to_Number (n : Z) : number :=
  let a := Z.abs n in
  let e := Z.log2 a - 52 in
  if e <=? 0 then Finite n
  else
    let q := a / 2 ^ e in
    let r := a mod 2 ^ e in
    let q' := if (2 * r <? 2 ^ e) || ((2 * r =? 2 ^ e) && Z.even q) then q else q + 1 in
    if q' * 2 ^ e <? 2 ^ 1024 then Finite (Z.sgn n * (q' * 2 ^ e)) else Infinity (n <? 0).

(** ToBoolean of a number that is not NaN. *)
Definition nonzero (x : number) : bool :=
  match x with
  | Finite n => negb (n =? 0)
  | Infinity _ => true
  end.

Definition keys (v : value) : list string :=
  match v with
  | VObj fields => List.map fst fields
  | _ => []
  end.

End JS.
Import JS.

(** ** The Date object

    A time value is a number of milliseconds since 1970-01-01T00:00:00Z; an
    Invalid Date is [None].  [toISOString] and the parsing of the date-only
    ISO form ([YYYY-MM-DD], read as UTC midnight) are written out; what
    [Date.parse] does with any other string is left to the runtime. *)
Module JSDate.

Definition msPerDay : Z := 86400000.

(** Year (within its 400-year era, counted from March), month and day of the
    [doe]-th day of an era. *)
Definition civil_of_doe (doe : Z) : Z * Z * Z :=
  let yoe := (doe - doe / 1460 + doe / 36524 - doe / 146096) / 365 in
  let doy := doe - (365 * yoe + yoe / 4 - yoe / 100) in
  let mp := (5 * doy + 2) / 153 in
  let d := doy - (153 * mp + 2) / 5 + 1 in
  let m := if mp <? 10 then mp + 3 else mp - 9 in
  (yoe + (if m <=? 2 then 1 else 0), m, d).

(** YearFromTime, MonthFromTime (1-based) and DateFromTime of a day number. *)
Definition civil_from_days (z : Z) : Z * Z * Z :=
  let z' := z + 719468 in
  let '(y, m, d) := civil_of_doe (z' mod 146097) in
  (y + (z' / 146097) * 400, m, d).

(** MakeDay. *)
Definition days_from_civil (y m d : Z) : Z :=
  let y' := if m <=? 2 then y - 1 else y in
  let yoe := y' mod 400 in
  let doy := (153 * (if 2 <? m then m - 3 else m + 9) + 2) / 5 + d - 1 in
  (y' / 400) * 146097 + (yoe * 365 + yoe / 4 - yoe / 100 + doy) - 719468.

Definition is_leap (y : Z) : bool :=
  (y mod 4 =? 0) && (negb (y mod 100 =? 0) || (y mod 400 =? 0)).

Definition daysInMonth (y m : Z) : Z :=
  if m =? 2 then (if is_leap y then 29 else 28)
  else if (m =? 4) || (m =? 6) || (m =? 9) || (m =? 11) then 30
  else 31.

Definition digit (n : Z) : ascii := ascii_of_nat (48 + Z.to_nat n).

Definition digit_val (c : ascii) : option Z :=
  let n := Z.of_nat (nat_of_ascii c) in
  if (48 <=? n) && (n <=? 57) then Some (n - 48) else None.

(** The [w] low decimal digits of [n], most significant first. *)
Fixpoint pad (w : nat) (n : Z) : string :=
  match w with
  | O => ""
  | S w' => pad w' (n / 10) ++ String (digit (n mod 10)) ""
  end.

(** Four digits for the years 0 to 9999, a sign and six digits otherwise. *)
Definition isoYear (y : Z) : string :=
  if (0 <=? y) && (y <=? 9999) then pad 4 y
  else (if y <? 0 then "-" else "+") ++ pad 6 (Z.abs y).

Definition isoDate (t : Z) : string :=
  let '(y, m, d) := civil_from_days (t / msPerDay) in
  isoYear y ++ "-" ++ pad 2 m ++ "-" ++ pad 2 d.

Definition isoTime (t : Z) : string :=
  let r := t mod msPerDay in
  pad 2 (r / 3600000) ++ ":" ++ pad 2 (r / 60000 mod 60) ++ ":" ++
  pad 2 (r / 1000 mod 60) ++ "." ++ pad 3 (r mod 1000).

(** [d.toISOString()]: a RangeError on an Invalid Date. *)
Definition toISOString (d : option Z) : outcome string :=
  match d with
  | None => Throw RangeError
  | Some t => Ok (isoDate t ++ "T" ++ isoTime t ++ "Z")
  end.

(** [s.split('T')[0]]. *)
Fixpoint split_T_0 (s : string) : string :=
  match s with
  | EmptyString => ""
  | String c rest => if Ascii.eqb c "T" then "" else String c (split_T_0 rest)
  end.

Definition dash (c : ascii) : bool := Ascii.eqb c "-".

(** The date-only ISO form with a four-digit year and a day that exists. *)
Definition parse_iso_date (s : string) : option Z :=
  match s with
  | String y1 (String y2 (String y3 (String y4 (String s1
      (String m1 (String m2 (String s2 (String d1 (String d2 EmptyString))))))))) =>
      match digit_val y1, digit_val y2, digit_val y3, digit_val y4,
            digit_val m1, digit_val m2, digit_val d1, digit_val d2 with
      | Some a, Some b, Some c, Some e, Some f, Some g, Some h, Some i =>
          let y := 1000 * a + 100 * b + 10 * c + e in
          let m := 10 * f + g in
          let d := 10 * h + i in
          if dash s1 && dash s2 && (1 <=? m) && (m <=? 12) &&
             (1 <=? d) && (d <=? daysInMonth y m)
          then Some (days_from_civil y m d * msPerDay)
          else None
      | _, _, _, _, _, _, _, _ => None
      end
  | _ => None
  end.

(** TimeClip. *)
Definition TimeClip (t : Z) : option Z :=
  if Z.abs t <=? 8640000000000000 then Some t else None.

Section Parse.
(** [Date.parse] on the strings [parse_iso_date] does not read. *)
Variable Date_parse_other : string -> option Z.
Variable Number_toString_large : Z -> string.

Definition Date_parse (s : string) : option Z :=
  match parse_iso_date s with
  | Some t => Some t
  | None => Date_parse_other s
  end.

(** [new Date(v)] for one argument: a string is parsed, any other primitive
    is read as a number; an array or an object is first turned into its
    string, which may throw. *)
Definition new_Date (v : value) : outcome (option Z) :=
  match v with
  | VStr s => Ok (Date_parse s)
  | VNum n => Ok (TimeClip n)
  | VNull => Ok (Some 0)
  | VBool b => Ok (Some (if b then 1 else 0))
  | VUndefined => Ok None
  | VArr _ | VObj _ =>
      match ToString Number_toString_large v with
      | Ok s => Ok (Date_parse s)
      | Throw e => Throw e
      end
  end.
End Parse.

(** The strings without a [T]. *)
Fixpoint no_T (s : string) : bool :=
  match s with
  | EmptyString => true
  | String c rest => negb (Ascii.eqb c "T") && no_T rest
  end.

(** The time values whose year has four digits. *)
Definition four_digit_year (t : Z) : Prop :=
  -62167219200000 <= t < 253402300800000.

End JSDate.
Import JSDate.

(** ** Effects of a request handler

    A handler reads the clock, logs, and calls backends through axios; any
    step may throw.  The backends and the clock are the world the handler
    runs in; the calls it issued, in order, stay recorded whether or not it
    threw afterwards. *)
Module Effects.

Inductive http_method : Type := GET | POST.

(** One axios call: the url, the Authorization header it forwards (absent
    when the caller sent none) and, for a POST, the JSON body. *)
Record call : Type := mkCall {
  method : http_method;
  url : string;
  Authorization : option string;
  payload : option value
}.

(** How a backend answers: a 2xx response resolves the promise; anything
    else rejects it, with the backend's response when there was one and
    without on a transport fault. *)
Inductive axios_outcome : Type :=
| Resolve (r : response)
| Reject (resp : option response).

Record world : Type := mkWorld {
  backend : call -> axios_outcome;
  clock : nat -> Z
}.

Record log_entry : Type := mkLog { level : string; message : string }.

Record state : Type := mkState {
  calls : list call;
  ticks : nat;
  logs : list log_entry
}.

Definition init : state := mkState [] O [].

Definition M (A : Type) : Type := world -> state -> outcome A * state.

Definition ret {A} (a : A) : M A := fun _ s => (Ok a, s).

Definition bind {A B} (m : M A) (f : A -> M B) : M B :=
  fun w s =>
    match m w s with
    | (Ok a, s') => f a w s'
    | (Throw e, s') => (Throw e, s')
    end.

Definition throw {A} (e : thrown) : M A := fun _ s => (Throw e, s).

Definition lift {A} (o : outcome A) : M A := fun _ s => (o, s).

(** [try { m } catch (error) { h error }]. *)
Definition try_catch {A} (m : M A) (h : thrown -> M A) : M A :=
  fun w s =>
    match m w s with
    | (Ok a, s') => (Ok a, s')
    | (Throw e, s') => h e w s'
    end.

(** [new Date()] read as a time value: the next reading of the clock. *)
Definition Date_now : M Z :=
  fun w s => (Ok (clock w (ticks s)), mkState (calls s) (S (ticks s)) (logs s)).

Definition log (lvl msg : string) : M unit :=
  fun _ s => (Ok tt, mkState (calls s) (ticks s) (logs s ++ [mkLog lvl msg])%list).

Definition axios (c : call) : M response :=
  fun w s =>
    let s' := mkState (calls s ++ [c])%list (ticks s) (logs s) in
    match backend w c with
    | Resolve r => (Ok r, s')
    | Reject resp => (Throw (AxiosError resp), s')
    end.

Definition axios_get (u : string) (token : option string) : M response :=
  axios (mkCall GET u token None).

Definition axios_post (u : string) (body : value) (token : option string) : M response :=
  axios (mkCall POST u token (Some body)).

(** One slot of [Promise.allSettled]. *)
Inductive settled : Type :=
| Fulfilled (v : response)
| Rejected (reason : thrown).

Definition settle (m : M response) : M settled :=
  fun w s =>
    match m w s with
    | (Ok r, s') => (Ok (Fulfilled r), s')
    | (Throw e, s') => (Ok (Rejected e), s')
    end.

(** [Promise.allSettled([a, b, c, d])]: the four requests are issued in the
    order of the array and every one settles. *)
Definition allSettled4 (a b c d : M response) : M (settled * settled * settled * settled) :=
  bind (settle a) (fun ra =>
  bind (settle b) (fun rb =>
  bind (settle c) (fun rc =>
  bind (settle d) (fun rd => ret (ra, rb, rc, rd))))).

(** [promise.catch(() => null)]. *)
Definition catch_null (m : M response) : M (option response) :=
  fun w s =>
    match m w s with
    | (Ok r, s') => (Ok (Some r), s')
    | (Throw _, s') => (Ok None, s')
    end.

(** [items.filter(p)] with a callback that may throw. *)
Fixpoint filterM (p : value -> outcome bool) (items : list value) : outcome (list value) :=
  match items with
  | [] => Ok []
  | b :: rest =>
      match p b with
      | Throw e => Throw e
      | Ok keep =>
          match filterM p rest with
          | Throw e => Throw e
          | Ok kept => Ok (if keep then b :: kept else kept)
          end
      end
  end.

Definition run {A} (m : M A) (w : world) : outcome A * state := m w init.

End Effects.
Import Effects.

Declare Scope js_scope.
Delimit Scope js_scope with js.
Notation "'let*' x ':=' m 'in' k" := (bind m (fun x => k))
  (at level 10, x pattern, m at level 100, k at level 200) : js_scope.
Notation "m ';;' k" := (bind m (fun _ => k))
  (at level 100, k at level 200, right associativity) : js_scope.

(** ** The gateway *)
Module Gateway.

(** What the handlers read of an Express request.  [user] is [req.user]:
    [undefined] until the token middleware sets it. *)
Record request : Type := mkRequest {
  authorization : option string;
  params_id : string;
  body : value;
  user : value;
  path : string;
  correlationId : string
}.

(** What a middleware does with a request: hand it on, or answer it. *)
Inductive step : Type :=
| Next (req : request)
| End (res : response).

Definition set_user (req : request) (decoded : value) : request :=
  mkRequest (authorization req) (params_id req) (body req) decoded
            (path req) (correlationId req).

Fixpoint startsWith (prefix s : string) : bool :=
  match prefix, s with
  | EmptyString, _ => true
  | String a p', String b s' => Ascii.eqb a b && startsWith p' s'
  | String _ _, EmptyString => false
  end.

(** [s.substring(n)]. *)
Fixpoint substring_from (n : nat) (s : string) : string :=
  match n, s with
  | O, _ => s
  | S n', String _ s' => substring_from n' s'
  | S _, EmptyString => ""
  end.

(** *** parseInt *)

Definition is_space (c : ascii) : bool :=
  let n := nat_of_ascii c in
  ((9 <=? n) && (n <=? 13))%nat || (n =? 32)%nat || (n =? 160)%nat.

Fixpoint trim_start (s : string) : string :=
  match s with
  | String c rest => if is_space c then trim_start rest else s
  | EmptyString => s
  end.

Definition radix_digit (radix : Z) (c : ascii) : option Z :=
  let n := Z.of_nat (nat_of_ascii c) in
  let v := if (48 <=? n) && (n <=? 57) then n - 48
           else if (97 <=? n) && (n <=? 122) then n - 87
           else if (65 <=? n) && (n <=? 90) then n - 55
           else radix in
  if v <? radix then Some v else None.

(** The value of the longest prefix of digits, [None] when it is empty. *)
Fixpoint digits_prefix (radix : Z) (s : string) (acc : option Z) : option Z :=
  match s with
  | EmptyString => acc
  | String c rest =>
      match radix_digit radix c with
      | None => acc
      | Some v =>
          digits_prefix radix rest
            (Some (match acc with Some a => a * radix + v | None => v end))
      end
  end.

Definition is_x (c : ascii) : bool := Ascii.eqb c "x" || Ascii.eqb c "X".

(** [parseInt(s)] with no radix: [None] is NaN.  The result is the number the
    digits write, as a double. *)
Definition parseInt (s : string) : option number :=
  let s1 := trim_start s in
  let '(sign, s2) :=
    match s1 with
    | String c rest =>
        if Ascii.eqb c "-" then (-1, rest)
        else if Ascii.eqb c "+" then (1, rest)
        else (1, s1)
    | EmptyString => (1, s1)
    end in
  let '(radix, s3) :=
    match s2 with
    | String z (String x rest) =>
        if Ascii.eqb z "0" && is_x x then (16, rest) else (10, s2)
    | _ => (10, s2)
    end in
  match digits_prefix radix s3 None with
  | Some n => Some (to_Number (sign * n))
  | None => None
  end.

Section Config.
(** [process.env]. *)
Variable env : string -> option string.

(** [process.env.NAME || fallback]. *)
Definition env_or (name fallback : string) : string :=
  match env name with
  | Some s => if String.eqb s "" then fallback else s
  | None => fallback
  end.

(** [parseInt(process.env.NAME) || fallback]: NaN and 0 are falsy. *)
Definition parseInt_env_or (name : string) (fallback : Z) : number :=
  match parseInt (match env name with Some s => s | None => "undefined" end) with
  | Some n => if nonzero n then n else Finite fallback
  | None => Finite fallback
  end.

Definition JWT_SECRET : string := env_or "JWT_SECRET" "your-super-secret-jwt-key".

Record services_t : Type := mkServices {
  svc_user : string;
  svc_training : string;
  svc_schedule : string;
  svc_progress : string;
  svc_notification : string
}.

Definition services : services_t :=
  mkServices (env_or "USER_SERVICE_URL" "http://localhost:3001")
             (env_or "TRAINING_SERVICE_URL" "http://localhost:3002")
             (env_or "SCHEDULE_SERVICE_URL" "http://localhost:8003")
             (env_or "PROGRESS_SERVICE_URL" "http://localhost:8004")
             (env_or "NOTIFICATION_SERVICE_URL" "http://localhost:3005").

(** *** Rate limiting: the options handed to express-rate-limit *)
Record limiter_options : Type := mkLimiter {
  windowMs : number;
  max : number;
  limit_message : value;
  standardHeaders : bool;
  legacyHeaders : bool;
  skip : bool
}.

Definition limiter : limiter_options :=
  mkLimiter
    (parseInt_env_or "RATE_LIMIT_WINDOW_MS" 60000)
    (parseInt_env_or "RATE_LIMIT_MAX_REQUESTS" 1000)
    (VObj [("success", VBool false);
           ("error", VObj [("code", VStr "RATE_LIMIT_EXCEEDED");
                           ("message", VStr "Too many requests, please try again later")])])
    true false
    (match env "NODE_ENV" with
     | Some s => String.eqb s "development"
     | None => false
     end).

(** The answer express-rate-limit sends once the ceiling is passed: the
    configured message, at the library's status 429. *)
Definition rate_limit_denial : response := mkResponse 429 (limit_message limiter).
End Config.

Local Open Scope js_scope.

Definition json (st : Z) (b : value) : M response := ret (mkResponse st b).

(** [new Date().toISOString()]. *)
Definition now_iso : M string :=
  let* t := Date_now in lift (toISOString (Some t)).

Definition failure (code msg : string) : value :=
  VObj [("success", VBool false);
        ("error", VObj [("code", VStr code); ("message", VStr msg)])].

(** [slot.status === 'fulfilled' ? extract(slot.value) : fallback]. *)
Definition fulfilled_or (slot : settled) (extract : response -> outcome value)
    (fallback : value) : M value :=
  match slot with
  | Fulfilled v => lift (extract v)
  | Rejected _ => ret fallback
  end.

(** [v.data.data]. *)
Definition data_data (v : response) : outcome value := get (data v) "data".

(** [v.data.data.length]. *)
Definition data_data_length (v : response) : outcome value :=
  match get (data v) "data" with
  | Ok d => get d "length"
  | Throw e => Throw e
  end.

(** [v.data.pagination?.total_count || 0]. *)
Definition total_count (v : response) : outcome value :=
  match get (data v) "pagination" with
  | Throw e => Throw e
  | Ok VUndefined | Ok VNull => Ok (or_else VUndefined (VNum 0))
  | Ok p =>
      match get p "total_count" with
      | Ok n => Ok (or_else n (VNum 0))
      | Throw e => Throw e
      end
  end.

Section Handlers.
Variable env : string -> option string.
(** [jwt.verify(token, secret, {issuer, audience})], at the time of the
    request. *)
Variable jwt_verify : string -> string -> string -> string -> outcome value.
Variable Date_parse_other : string -> option Z.
Variable Number_toString_large : Z -> string.

Let svc := services env.

(** *** JWT verification middleware *)
Definition verifyToken (req : request) : M step :=
  match authorization req with
  | None => ret (Next req)
  | Some authHeader =>
      if negb (truthy (VStr authHeader)) || negb (startsWith "Bearer " authHeader)
      then ret (Next req)
      else
        let token := substring_from 7 authHeader in
        match jwt_verify token (JWT_SECRET env) "fitsync-user-service" "fitsync-api" with
        | Ok decoded =>
            let req' := set_user req decoded in
            match get decoded "id", get decoded "role" with
            | Ok _, Ok _ => log "debug" "Token verified" ;; ret (Next req')
            | _, _ => log "warn" "Token verification failed" ;; ret (Next req')
            end
        | Throw _ =>
            log "warn" "Token verification failed" ;; ret (Next req)
        end
  end.

(** *** Proxy error, 404 and error handlers *)
Definition onError : M response :=
  log "error" "Proxy error" ;;
  let* ts := now_iso in
  json 502
    (VObj [("success", VBool false);
           ("error", VObj [("code", VStr "SERVICE_UNAVAILABLE");
                           ("message", VStr "The requested service is temporarily unavailable");
                           ("timestamp", VStr ts)])]).

Definition notFound (req : request) : M response :=
  let* ts := now_iso in
  json 404
    (VObj [("success", VBool false);
           ("error", VObj [("code", VStr "NOT_FOUND");
                           ("message", VStr "Endpoint not found");
                           ("path", VStr (path req));
                           ("timestamp", VStr ts)])]).

(** Of the request the error handler reads [req.correlationId] only.  It is
    [undefined] when the error was raised before the correlation middleware
    ran, as [express.json] does on a body it cannot parse. *)
Definition errorHandler (correlationId : option string) : M response :=
  log "error" "Unhandled error:" ;;
  let* ts := now_iso in
  json 500
    (VObj [("success", VBool false);
           ("error", VObj [("code", VStr "INTERNAL_ERROR");
                           ("message", VStr "An unexpected error occurred");
                           ("correlationId", match correlationId with
                                             | Some id => VStr id
                                             | None => VUndefined
                                             end);
                           ("timestamp", VStr ts)])]).

(** *** GET /api/dashboard/client/:id *)
Definition clientDashboard (req : request) : M response :=
  try_catch
    (let id := params_id req in
     let token := authorization req in
     let* denied :=
       (if truthy (user req) then
          let* role := lift (get (user req) "role") in
          if strict_eq_str role "client" then
            let* uid := lift (get (user req) "id") in
            ret (negb (strict_eq_str uid id))
          else ret false
        else ret false) in
     if denied then
       json 403 (failure "FORBIDDEN" "Cannot access other client dashboards")
     else
       let* (profile, programs, bookings, analytics) :=
         allSettled4
           (axios_get (svc_user svc ++ "/api/users/" ++ id) token)
           (axios_get (svc_training svc ++ "/api/programs?client_id=" ++ id ++ "&limit=5") token)
           (axios_get (svc_schedule svc ++ "/api/bookings?client_id=" ++ id
                         ++ "&status=scheduled&limit=5") token)
           (axios_get (svc_progress svc ++ "/api/analytics/client/" ++ id) token) in
       let* f_profile := fulfilled_or profile data_data VNull in
       let* f_programs := fulfilled_or programs data_data (VArr []) in
       let* f_bookings := fulfilled_or bookings data_data (VArr []) in
       let* f_summary := fulfilled_or analytics data_data VNull in
       let* ts := now_iso in
       json 200
         (VObj [("success", VBool true);
                ("data", VObj [("profile", f_profile);
                               ("active_programs", f_programs);
                               ("upcoming_bookings", f_bookings);
                               ("progress_summary", f_summary)]);
                ("timestamp", VStr ts)]))
    (fun error =>
       log "error" "Client dashboard error:" ;;
       json 500 (failure "DASHBOARD_ERROR" "Failed to load dashboard")).

(** *** GET /api/dashboard/trainer/:id *)

(** The callback of the filter:
    [b.booking_date === today ||
     new Date(b.booking_date).toISOString().split('T')[0] === today]. *)
Definition is_today (today : string) (b : value) : outcome bool :=
  match get b "booking_date" with
  | Throw e => Throw e
  | Ok bd =>
      if strict_eq_str bd today then Ok true
      else
        match new_Date Date_parse_other Number_toString_large bd with
        | Throw e => Throw e
        | Ok d =>
            match toISOString d with
            | Throw e => Throw e
            | Ok iso => Ok (String.eqb (split_T_0 iso) today)
            end
        end
  end.

(** [let todaySchedule = []; if (todayBookings.status === 'fulfilled')
    todaySchedule = todayBookings.value.data.data.filter(...)]: calling
    [filter] on anything but an array is a TypeError. *)
Definition todaySchedule (today : string) (todayBookings : settled) : outcome (list value) :=
  match todayBookings with
  | Rejected _ => Ok []
  | Fulfilled v =>
      match get (data v) "data" with
      | Throw e => Throw e
      | Ok (VArr items) => filterM (is_today today) items
      | Ok _ => Throw TypeError
      end
  end.

Definition trainerDashboard (req : request) : M response :=
  try_catch
    (let id := params_id req in
     let token := authorization req in
     let* denied :=
       (if truthy (user req) then
          let* role := lift (get (user req) "role") in
          if strict_eq_str role "trainer" then
            let* uid := lift (get (user req) "id") in
            ret (negb (strict_eq_str uid id))
          else ret false
        else ret false) in
     if denied then
       json 403 (failure "FORBIDDEN" "Cannot access other trainer dashboards")
     else
       let* iso := now_iso in
       let today := split_T_0 iso in
       let* (profile, programs, todayBookings, clients) :=
         allSettled4
           (axios_get (svc_user svc ++ "/api/users/" ++ id) token)
           (axios_get (svc_training svc ++ "/api/programs?trainer_id=" ++ id
                         ++ "&status=active&limit=10") token)
           (axios_get (svc_schedule svc ++ "/api/bookings?trainer_id=" ++ id ++ "&limit=20") token)
           (axios_get (svc_user svc ++ "/api/users?role=client&limit=50") token) in
       let* schedule := lift (todaySchedule today todayBookings) in
       let* f_profile := fulfilled_or profile data_data VNull in
       let* f_active := fulfilled_or programs data_data_length (VNum 0) in
       let* f_recent := fulfilled_or programs data_data (VArr []) in
       let* ts := now_iso in
       json 200
         (VObj [("success", VBool true);
                ("data", VObj [("profile", f_profile);
                               ("active_clients", f_active);
                               ("today_schedule", VArr schedule);
                               ("recent_programs", f_recent)]);
                ("timestamp", VStr ts)]))
    (fun error =>
       log "error" "Trainer dashboard error:" ;;
       json 500 (failure "DASHBOARD_ERROR" "Failed to load dashboard")).

(** *** GET /api/dashboard/admin *)
Definition adminDashboard (req : request) : M response :=
  try_catch
    (let token := authorization req in
     let* denied :=
       (if truthy (user req) then
          let* role := lift (get (user req) "role") in
          ret (negb (strict_eq_str role "admin"))
        else ret false) in
     if denied then
       json 403 (failure "FORBIDDEN" "Admin access required")
     else
       let* (users, trainers, clients, programs) :=
         allSettled4
           (axios_get (svc_user svc ++ "/api/users?limit=1") token)
           (axios_get (svc_user svc ++ "/api/users?role=trainer&limit=1") token)
           (axios_get (svc_user svc ++ "/api/users?role=client&limit=1") token)
           (axios_get (svc_training svc ++ "/api/programs?limit=1") token) in
       let* n_users := fulfilled_or users total_count (VNum 0) in
       let* n_trainers := fulfilled_or trainers total_count (VNum 0) in
       let* n_clients := fulfilled_or clients total_count (VNum 0) in
       let* n_programs := fulfilled_or programs total_count (VNum 0) in
       let* ts := now_iso in
       json 200
         (VObj [("success", VBool true);
                ("data", VObj [("total_users", n_users);
                               ("total_trainers", n_trainers);
                               ("total_clients", n_clients);
                               ("total_programs", n_programs)]);
                ("timestamp", VStr ts)]))
    (fun error =>
       log "error" "Admin dashboard error:" ;;
       json 500 (failure "DASHBOARD_ERROR" "Failed to load dashboard")).

(** *** POST /api/bookings/validated *)
Definition bookingsValidated (req : request) : M response :=
  try_catch
    (let token := authorization req in
     let* trainer_id := lift (get (body req) "trainer_id") in
     let* client_id := lift (get (body req) "client_id") in
     let* booking_date := lift (get (body req) "booking_date") in
     let* start_time := lift (get (body req) "start_time") in
     let* end_time := lift (get (body req) "end_time") in
     let* type := lift (get (body req) "type") in
     let* gym_id := lift (get (body req) "gym_id") in
     let* notes := lift (get (body req) "notes") in
     let* trainer := lift (ToString Number_toString_large trainer_id) in
     let* trainerCheck :=
       catch_null (axios_get (svc_user svc ++ "/api/users/" ++ trainer) token) in
     let* invalid :=
       match trainerCheck with
       | None => ret true
       | Some r =>
           let* d := lift (get (data r) "data") in
           let* role := lift (get d "role") in
           ret (negb (strict_eq_str role "trainer"))
       end in
     if invalid then
       json 400 (failure "INVALID_TRAINER" "Invalid trainer ID")
     else
       let* booking :=
         axios_post (svc_schedule svc ++ "/api/bookings")
           (VObj [("trainer_id", trainer_id);
                  ("booking_date", booking_date);
                  ("start_time", start_time);
                  ("end_time", end_time);
                  ("type", type);
                  ("gym_id", gym_id);
                  ("notes", notes)])
           token in
       json 201 (data booking))
    (fun error =>
       log "error" "Validated booking creation error:" ;;
       match error with
       | AxiosError (Some r) => json (status r) (data r)
       | _ => json 500 (failure "BOOKING_FAILED" "Failed to create booking")
       end).
End Handlers.

End Gateway.
Import Gateway.

(** ** Routing and proxying

    The route table, the way Express mounts a prefix, and the hook that
    prepares the request sent on to a backend. *)
Module Proxying.

(** ASCII lower case: Express matches paths without regard to case. *)
Definition lower (c : ascii) : ascii :=
  let n := nat_of_ascii c in
  if ((65 <=? n) && (n <=? 90))%nat then ascii_of_nat (n + 32) else c.

Fixpoint lower_string (s : string) : string :=
  match s with
  | EmptyString => ""
  | String c rest => String (lower c) (lower_string rest)
  end.

(** What is left of [path] after [prefix], compared without case. *)
Fixpoint strip_prefix_ci (prefix path : string) : option string :=
  match prefix, path with
  | EmptyString, _ => Some path
  | String a p', String b s' =>
      if Ascii.eqb (lower a) (lower b) then strip_prefix_ci p' s' else None
  | String _ _, EmptyString => None
  end.

(** A mount point ends at the end of the path or at a slash. *)
Definition boundary (rest : string) : bool :=
  match rest with
  | EmptyString => true
  | String c _ => Ascii.eqb c "/"
  end.

(** A trailing slash of a mount point does not count. *)
Fixpoint drop_trailing_slash (prefix : string) : string :=
  match prefix with
  | EmptyString => ""
  | String c rest =>
      match rest with
      | EmptyString => if Ascii.eqb c "/" then "" else prefix
      | String _ _ => String c (drop_trailing_slash rest)
      end
  end.

(** [app.use(prefix, handler)] sees the request path [path]. *)
Definition mounts (prefix path : string) : bool :=
  match strip_prefix_ci (drop_trailing_slash prefix) path with
  | Some rest => boundary rest
  | None => false
  end.

Section Routes.
Variable env : string -> option string.

Let svc := services env.

Record route : Type := mkRoute { route_path : string; target : string }.

Definition routes : list route :=
  [mkRoute "/api/auth" (svc_user svc);
   mkRoute "/api/users" (svc_user svc);
   mkRoute "/api/exercises" (svc_training svc);
   mkRoute "/api/workouts" (svc_training svc);
   mkRoute "/api/diets" (svc_training svc);
   mkRoute "/api/programs" (svc_training svc);
   mkRoute "/api/availability" (svc_schedule svc);
   mkRoute "/api/bookings" (svc_schedule svc);
   mkRoute "/api/sessions" (svc_schedule svc);
   mkRoute "/api/metrics" (svc_progress svc);
   mkRoute "/api/workout-logs" (svc_progress svc);
   mkRoute "/api/health-records" (svc_progress svc);
   mkRoute "/api/analytics" (svc_progress svc);
   mkRoute "/api/achievements" (svc_progress svc);
   mkRoute "/api/notifications" (svc_notification svc)].

(** [routes.forEach(({path, target}) => app.use(path, proxy(target)))]: the
    proxies are tried in the order of the table and the first one mounted on
    the path takes the request; with none, the 404 handler does. *)
Definition proxy_for (path : string) : option route :=
  List.find (fun r => mounts (route_path r) path) routes.

(** [GET /health]. *)
Definition health : M response :=
  (let* ts := now_iso in
   json 200
     (VObj [("status", VStr "healthy");
            ("service", VStr "api-gateway");
            ("timestamp", VStr ts);
            ("services", VObj [("user", VStr (svc_user svc));
                               ("training", VStr (svc_training svc));
                               ("schedule", VStr (svc_schedule svc));
                               ("progress", VStr (svc_progress svc));
                               ("notification", VStr (svc_notification svc))])]))%js.
End Routes.

(** The request about to leave for the backend: its headers, under
    lower-case names, and what has been written of its body. *)
Record outbound : Type := mkOutbound {
  out_headers : list (string * string);
  out_written : option string
}.

Fixpoint remove_header (k : string) (hs : list (string * string)) : list (string * string) :=
  match hs with
  | [] => []
  | (k', v) :: rest =>
      if String.eqb k k' then remove_header k rest else (k', v) :: remove_header k rest
  end.

Fixpoint header (k : string) (hs : list (string * string)) : option string :=
  match hs with
  | [] => None
  | (k', v) :: rest => if String.eqb k k' then Some v else header k rest
  end.

(** [proxyReq.setHeader(name, value)]. *)
Definition setHeader (name v : string) (o : outbound) : outbound :=
  mkOutbound ((lower_string name, v) :: remove_header (lower_string name) (out_headers o))
             (out_written o).

(** [proxyReq.write(chunk)]. *)
Definition write (chunk : string) (o : outbound) : outbound :=
  mkOutbound (out_headers o)
    (Some (match out_written o with Some sent => sent ++ chunk | None => chunk end)).

(** [Object.keys(v).length > 0]. *)
Definition has_keys (v : value) : bool :=
  match v with
  | VObj [] | VArr [] => false
  | VObj _ | VArr _ => true
  | VStr s => negb (String.eqb s "")
  | _ => false
  end.

Section Hook.
(** [JSON.stringify] and [Buffer.byteLength]. *)
Variable JSON_stringify : value -> string.
Variable byteLength : string -> Z.

(** [onProxyReq(proxyReq, req)], for a request of method [meth]. *)
Definition onProxyReq (meth : string) (req : request) (proxyReq : outbound) : outbound :=
  let o1 := setHeader "X-Correlation-ID" (correlationId req) proxyReq in
  let o2 :=
    match authorization req with
    | Some h => if truthy (VStr h) then setHeader "Authorization" h o1 else o1
    | None => o1
    end in
  if truthy (body req) && has_keys (body req) &&
     (String.eqb meth "POST" || String.eqb meth "PUT" || String.eqb meth "PATCH")
  then
    let bodyData := JSON_stringify (body req) in
    let o3 := setHeader "Content-Type" "application/json" o2 in
    let o4 := setHeader "Content-Length" (Z_to_string (byteLength bodyData)) o3 in
    write bodyData o4
  else o2.
End Hook.

End Proxying.
Import Proxying.

(** ** Vocabulary of the properties *)
Module Spec.

Definition nullish (v : value) : bool :=
  match v with
  | VUndefined | VNull => true
  | _ => false
  end.

(** The slot a call settles into. *)
Definition slot_of (w : world) (c : call) : settled :=
  match backend w c with
  | Resolve r => Fulfilled r
  | Reject resp => Rejected (AxiosError resp)
  end.

Definition is_fulfilled (s : settled) : bool :=
  match s with Fulfilled _ => true | Rejected _ => false end.

Definition fulfilled_count (slots : list settled) : nat :=
  List.length (List.filter is_fulfilled slots).

(** A fulfilled slot whose body is neither [null] nor [undefined]. *)
Definition readable (s : settled) : Prop :=
  match s with
  | Fulfilled v => nullish (data v) = false
  | Rejected _ => True
  end.

(** What a payload field holds for a slot. *)
Definition slot_field (extract : response -> outcome value) (fallback : value)
    (s : settled) : value :=
  match s with
  | Fulfilled v => match extract v with Ok x => x | Throw _ => fallback end
  | Rejected _ => fallback
  end.

Definition forbidden (msg : string) : response := mkResponse 403 (failure "FORBIDDEN" msg).

Definition dashboard_error : response :=
  mkResponse 500 (failure "DASHBOARD_ERROR" "Failed to load dashboard").

Definition success (payload : value) (ts : string) : value :=
  VObj [("success", VBool true); ("data", payload); ("timestamp", VStr ts)].

Section Calls.
Variable env : string -> option string.

Definition client_calls (req : request) : list call :=
  let id := params_id req in
  let token := authorization req in
  [mkCall GET (svc_user (services env) ++ "/api/users/" ++ id) token None;
   mkCall GET (svc_training (services env) ++ "/api/programs?client_id=" ++ id ++ "&limit=5")
     token None;
   mkCall GET (svc_schedule (services env) ++ "/api/bookings?client_id=" ++ id
                 ++ "&status=scheduled&limit=5") token None;
   mkCall GET (svc_progress (services env) ++ "/api/analytics/client/" ++ id) token None].

Definition trainer_calls (req : request) : list call :=
  let id := params_id req in
  let token := authorization req in
  [mkCall GET (svc_user (services env) ++ "/api/users/" ++ id) token None;
   mkCall GET (svc_training (services env) ++ "/api/programs?trainer_id=" ++ id
                 ++ "&status=active&limit=10") token None;
   mkCall GET (svc_schedule (services env) ++ "/api/bookings?trainer_id=" ++ id ++ "&limit=20")
     token None;
   mkCall GET (svc_user (services env) ++ "/api/users?role=client&limit=50") token None].

Definition admin_calls (req : request) : list call :=
  let token := authorization req in
  [mkCall GET (svc_user (services env) ++ "/api/users?limit=1") token None;
   mkCall GET (svc_user (services env) ++ "/api/users?role=trainer&limit=1") token None;
   mkCall GET (svc_user (services env) ++ "/api/users?role=client&limit=1") token None;
   mkCall GET (svc_training (services env) ++ "/api/programs?limit=1") token None].

(** The fan-out went out and the request was answered, not refused. *)
Definition proceeds (expected : list call) (r : outcome response * state) : Prop :=
  calls (snd r) = expected /\
  exists res, fst r = Ok res /\ (status res = 200 \/ res = dashboard_error).

(** A field of the inbound booking. *)
Definition field (req : request) (k : string) : value :=
  match get (body req) k with Ok v => v | Throw _ => VUndefined end.

(** The lookup of the trainer, [trainer] being the text of the inbound
    [trainer_id]. *)
Definition trainer_call (req : request) (trainer : string) : call :=
  mkCall GET (svc_user (services env) ++ "/api/users/" ++ trainer) (authorization req) None.

Definition create_call (req : request) : call :=
  mkCall POST (svc_schedule (services env) ++ "/api/bookings") (authorization req)
    (Some (VObj [("trainer_id", field req "trainer_id");
                 ("booking_date", field req "booking_date");
                 ("start_time", field req "start_time");
                 ("end_time", field req "end_time");
                 ("type", field req "type");
                 ("gym_id", field req "gym_id");
                 ("notes", field req "notes")])).
End Calls.

Section Credentials.
Variable env : string -> option string.
Variable jwt_verify : string -> string -> string -> string -> outcome value.

(** The three ways a request comes without a usable credential. *)
Inductive no_credential (req : request) : Prop :=
| header_absent :
    authorization req = None -> no_credential req
| header_not_bearer (h : string) :
    authorization req = Some h -> startsWith "Bearer " h = false -> no_credential req
| verification_fails (h : string) (e : thrown) :
    authorization req = Some h -> startsWith "Bearer " h = true ->
    jwt_verify (substring_from 7 h) (JWT_SECRET env) "fitsync-user-service" "fitsync-api"
      = Throw e ->
    no_credential req.
End Credentials.

(** What the create call may carry: the seven booking fields, each as the
    inbound body has it, and no [client_id]. *)
Definition forwards_only_booking_fields (req : request) (c : call) : Prop :=
  match payload c with
  | None => True
  | Some p =>
      keys p = ["trainer_id"; "booking_date"; "start_time"; "end_time"; "type";
                "gym_id"; "notes"] /\
      get p "client_id" = Ok VUndefined /\
      forall k, In k (keys p) -> get p k = get (body req) k
  end.

Definition invalid_trainer : response :=
  mkResponse 400 (failure "INVALID_TRAINER" "Invalid trainer ID").

Definition booking_failed : response :=
  mkResponse 500 (failure "BOOKING_FAILED" "Failed to create booking").

Definition booking_error_log : log_entry :=
  mkLog "error" "Validated booking creation error:".

(** *** Overrides of the rate-limit options *)

Definition is_digit (c : ascii) : bool :=
  let n := Z.of_nat (nat_of_ascii c) in (48 <=? n) && (n <=? 57).

Fixpoint all_digits (s : string) : bool :=
  match s with
  | EmptyString => true
  | String c rest => is_digit c && all_digits rest
  end.

Fixpoint decimal_value_from (acc : Z) (s : string) : Z :=
  match s with
  | EmptyString => acc
  | String c rest => decimal_value_from (acc * 10 + (Z.of_nat (nat_of_ascii c) - 48)) rest
  end.

(** The number a string of decimal digits writes. *)
Definition decimal_value (s : string) : Z := decimal_value_from 0 s.

(** A numeric override: decimal digits and nothing else. *)
Definition numeral (s : string) : Prop := s <> "" /\ all_digits s = true.

(** The integers a double holds one by one. *)
Definition held_exactly (n : Z) : Prop := Z.abs n <= 9007199254740992.

(** An override with no number in front: after leading blanks it is empty,
    or starts with something that is neither a digit nor a sign. *)
Definition not_a_number (s : string) : Prop :=
  forall c rest, trim_start s = String c rest ->
    is_digit c = false /\ c <> "-"%char /\ c <> "+"%char.

(** How an option resolves from its environment variable: a numeral gives
    the number it writes, as a double, so the number itself when a double
    holds it exactly. *)
Definition override_rule (env : string -> option string) (name : string)
    (fallback : Z) (resolved : number) : Prop :=
  (env name = None -> resolved = Finite fallback) /\
  (forall s, env name = Some s -> numeral s -> decimal_value s <> 0 ->
     resolved = to_Number (decimal_value s) /\
     (held_exactly (decimal_value s) -> resolved = Finite (decimal_value s))) /\
  (forall s, env name = Some s -> numeral s -> decimal_value s = 0 ->
     resolved = Finite fallback) /\
  (forall s, env name = Some s -> not_a_number s -> resolved = Finite fallback).

(** *** Envelopes *)

Definition is_string (v : outcome value) : bool :=
  match v with Ok (VStr _) => true | _ => false end.

Definition absent (v : outcome value) : bool :=
  match v with Ok VUndefined => true | _ => false end.

(** [{success: true, data}] or [{success: false, error: {code, message}}]. *)
Definition envelope (b : value) : bool :=
  match get b "success" with
  | Ok (VBool true) => negb (absent (get b "data")) && absent (get b "error")
  | Ok (VBool false) =>
      absent (get b "data") &&
      match get b "error" with
      | Ok e => is_string (get e "code") && is_string (get e "message")
      | Throw _ => false
      end
  | _ => false
  end.

Definition succeeded (b : value) : bool :=
  match get b "success" with Ok (VBool true) => true | _ => false end.

Definition top_timestamp (b : value) : bool := is_string (get b "timestamp").

Definition error_timestamp (b : value) : bool :=
  match get b "error" with
  | Ok e => is_string (get e "timestamp")
  | Throw _ => false
  end.

Definition code_among (codes : list string) (b : value) : bool :=
  match get b "error" with
  | Ok e =>
      match get e "code" with
      | Ok (VStr c) => existsb (String.eqb c) codes
      | _ => false
      end
  | Throw _ => false
  end.

Section Replies.
Variable env : string -> option string.
Variable Date_parse_other : string -> option Z.
Variable Number_toString_large : Z -> string.

(** The answers the gateway makes up itself: the rate-limit denial, the
    proxy error, the 404 and error handlers, and whatever a dashboard
    answers (refusal, result, failure). *)
Inductive gateway_reply : response -> Prop :=
| limiter_reply :
    gateway_reply (rate_limit_denial env)
| proxy_error_reply w s res s' :
    onError w s = (Ok res, s') -> gateway_reply res
| not_found_reply req w s res s' :
    notFound req w s = (Ok res, s') -> gateway_reply res
| error_handler_reply correlationId w s res s' :
    errorHandler correlationId w s = (Ok res, s') -> gateway_reply res
| client_reply req w s res s' :
    clientDashboard env req w s = (Ok res, s') -> gateway_reply res
| trainer_reply req w s res s' :
    trainerDashboard env Date_parse_other Number_toString_large req w s = (Ok res, s') ->
    gateway_reply res
| admin_reply req w s res s' :
    adminDashboard env req w s = (Ok res, s') -> gateway_reply res.
End Replies.

(** *** The schedule of the day *)

Section Today.
Variable env : string -> option string.
Variable Date_parse_other : string -> option Z.
Variable Number_toString_large : Z -> string.

(** The first three calls of the trainer dashboard: for the profile, for the
    programs and for the trainer's bookings. *)
Definition trainer_profile_call (req : request) : call :=
  mkCall GET (svc_user (services env) ++ "/api/users/" ++ params_id req)
    (authorization req) None.

Definition trainer_programs_call (req : request) : call :=
  mkCall GET (svc_training (services env) ++ "/api/programs?trainer_id=" ++ params_id req
                ++ "&status=active&limit=10") (authorization req) None.

Definition trainer_bookings_call (req : request) : call :=
  mkCall GET (svc_schedule (services env) ++ "/api/bookings?trainer_id=" ++ params_id req
                ++ "&limit=20") (authorization req) None.

(** The stored date of a record as a date-only string, when it is a date. *)
Definition normalized_date (b : value) : option string :=
  match get b "booking_date" with
  | Ok bd =>
      match new_Date Date_parse_other Number_toString_large bd with
      | Ok (Some t) => Some (isoDate t)
      | _ => None
      end
  | Throw _ => None
  end.

Definition dated (day : string) (b : value) : bool :=
  match normalized_date b with
  | Some d => String.eqb d day
  | None => false
  end.
End Today.

(** [res.data.today_schedule] of an answer. *)
Definition today_schedule_of (res : response) : outcome value :=
  match get (data res) "data" with
  | Ok d => get d "today_schedule"
  | Throw e => Throw e
  end.

Definition trainer_error_log : log_entry := mkLog "error" "Trainer dashboard error:".

(** *** Further vocabulary *)

Section Answers.
Variable env : string -> option string.

(** What a dashboard can answer: the refusal, before any call, or, after
    the whole fan-out, the result or DASHBOARD_ERROR. *)
Definition dashboard_outcome (msg : string) (expected : list call)
    (r : outcome response * state) : Prop :=
  exists res, fst r = Ok res /\
    ((res = forbidden msg /\ snd r = init) \/
     (calls (snd r) = expected /\ (status res = 200 \/ res = dashboard_error))).
End Answers.

(** [res.data.active_clients] and [res.data.recent_programs] of an answer. *)
Definition active_clients_of (res : response) : outcome value :=
  match get (data res) "data" with
  | Ok d => get d "active_clients"
  | Throw e => Throw e
  end.

Definition recent_programs_of (res : response) : outcome value :=
  match get (data res) "data" with
  | Ok d => get d "recent_programs"
  | Throw e => Throw e
  end.

Definition lowercase (s : string) : Prop := lower_string s = s.

(** *** Vocabulary of the further properties *)

(** The call carries the caller's credential. *)
Definition forwards_credential (req : request) (c : call) : Prop :=
  Authorization c = authorization req.

(** A fulfilled slot whose body has something under [data]. *)
Definition listable (s : settled) : Prop :=
  match s with
  | Fulfilled v => exists d, get (data v) "data" = Ok d /\ nullish d = false
  | Rejected _ => True
  end.

(** The methods for which the hook writes the body again. *)
Definition rewrites_body (meth : string) : Prop :=
  meth = "POST" \/ meth = "PUT" \/ meth = "PATCH".

(** The prefixes of the route table. *)
Definition prefixes : list string :=
  ["/api/auth"; "/api/users"; "/api/exercises"; "/api/workouts"; "/api/diets";
   "/api/programs"; "/api/availability"; "/api/bookings"; "/api/sessions"; "/api/metrics";
   "/api/workout-logs"; "/api/health-records"; "/api/analytics"; "/api/achievements";
   "/api/notifications"].

(** [q] is not [p] followed by a slash and more. *)
Definition apart (p q : string) : bool :=
  String.eqb p q || negb (startsWith (p ++ "/") q).

(** *** Concrete surroundings, for examples *)

Definition no_env : string -> option string := fun _ => None.

Definition no_other_dates : string -> option Z := fun _ => None.

(** A stand-in for the text of the numbers beyond 2^53. *)
Definition large_stub (n : Z) : string := "1e+21".

(** A verifier that accepts exactly the token [good] as an admin. *)
Definition one_token_jwt (token secret issuer audience : string) : outcome value :=
  if String.eqb token "good"
  then Ok (VObj [("id", VStr "u1"); ("role", VStr "admin")])
  else Throw (JwtError BadSignature).

(** 2026-11-01T19:40:00.123Z. *)
Definition an_evening : Z := 1793562000123.

Definition request_of (auth : option string) (id : string) (b u : value) : request :=
  mkRequest auth id b u "/" "cid".

Definition anonymous : request := request_of None "c1" (VObj []) VUndefined.

Definition identity (id role : string) : value :=
  VObj [("id", VStr id); ("role", VStr role)].

(** Every backend is unreachable. *)
Definition all_down : world := mkWorld (fun _ => Reject None) (fun _ => an_evening).

Definition a_booking : request :=
  request_of (Some "Bearer x") ""
    (VObj [("trainer_id", VStr "t7"); ("client_id", VStr "c9");
           ("booking_date", VStr "2026-11-02"); ("notes", VStr "first session")])
    VUndefined.

(** The user backend knows the trainer; the scheduling backend answers the
    create call with [create]. *)
Definition trainer_known (create : axios_outcome) : world :=
  mkWorld
    (fun c =>
       match method c with
       | GET => Resolve (mkResponse 200 (VObj [("data", VObj [("role", VStr "trainer")])]))
       | POST => create
       end)
    (fun _ => an_evening).

Definition slot_conflict : response :=
  mkResponse 409 (VObj [("success", VBool false); ("error", VStr "slot taken")]).

Definition env_with (name v : string) : string -> option string :=
  fun k => if String.eqb k name then Some v else None.

(** The user and training backends answer with [users] and [programs]; the
    scheduling and progress backends are unreachable. *)
Definition two_up (users programs : value) : world :=
  mkWorld
    (fun c =>
       if startsWith "http://localhost:3001" (url c) then Resolve (mkResponse 200 users)
       else if startsWith "http://localhost:3002" (url c) then Resolve (mkResponse 200 programs)
       else Reject None)
    (fun _ => an_evening).

Definition a_profile : value := VObj [("data", VObj [("name", VStr "John Doe")])].

Definition no_programs : value := VObj [("data", VArr [])].

(** Only the scheduling backend answers, with the list [bookings]. *)
Definition schedule_up (bookings : list value) : world :=
  mkWorld
    (fun c =>
       if startsWith "http://localhost:8003" (url c)
       then Resolve (mkResponse 200 (VObj [("data", VArr bookings)]))
       else Reject None)
    (fun _ => an_evening).

Definition booked (id date : string) : value :=
  VObj [("id", VStr id); ("booking_date", VStr date)].

Definition two_programs : value :=
  VObj [("data", VArr [VObj [("id", VStr "p1")]; VObj [("id", VStr "p2")]])].

(** Every backend answers: the user backend with [a_profile], the training
    backend with [two_programs], the scheduling backend with the list
    [bookings]; the clock moves on by a millisecond at each reading. *)
Definition all_up (bookings : list value) : world :=
  mkWorld
    (fun c =>
       if startsWith "http://localhost:3001" (url c) then Resolve (mkResponse 200 a_profile)
       else if startsWith "http://localhost:3002" (url c)
       then Resolve (mkResponse 200 two_programs)
       else if startsWith "http://localhost:8003" (url c)
       then Resolve (mkResponse 200 (VObj [("data", VArr bookings)]))
       else Reject None)
    (fun n => an_evening + Z.of_nat n).

Definition three_days : list value :=
  [booked "b1" "2026-10-31"; booked "b2" "2026-11-01"; booked "b3" "2026-11-02"].

(** A booking whose [trainer_id] is an object with a field [toString]. *)
Definition odd_booking : request :=
  request_of (Some "Bearer x") ""
    (VObj [("trainer_id", VObj [("toString", VNum 1)]); ("notes", VStr "first session")])
    VUndefined.

Definition stringify_stub (v : value) : string := "{}".

Definition length_stub (s : string) : Z := Z.of_nat (String.length s).

End Spec.
Import Spec.

(** * Properties *)

(** ** Calendar arithmetic *)
Module DateFacts.

Lemma year_of_era_day (doe : Z) :
  0 <= doe < 146097 ->
  let yoe := (doe - doe / 1460 + doe / 36524 - doe / 146096) / 365 in
  let doy := doe - (365 * yoe + yoe / 4 - yoe / 100) in
  0 <= yoe <= 399 /\ 0 <= doy <= 365 /\
  (doy = 365 -> (yoe + 1) mod 4 = 0 /\ ((yoe + 1) mod 100 <> 0 \/ (yoe + 1) mod 400 = 0)) /\
  (doe < 146037 <-> (yoe < 399 \/ doy < 306)).
Proof.
  intros H yoe doy. subst yoe doy. Z.div_mod_to_equations. lia.
Qed.

Lemma month_of_year_day (doy : Z) :
  0 <= doy <= 365 ->
  let mp := (5 * doy + 2) / 153 in
  let d := doy - (153 * mp + 2) / 5 + 1 in
  0 <= mp <= 11 /\ 1 <= d <= 31 /\ (153 * mp + 2) / 5 + d - 1 = doy /\
  (mp = 11 -> d <= 29) /\ (mp = 11 -> d = 29 -> doy = 365) /\
  (mp = 1 \/ mp = 3 \/ mp = 6 \/ mp = 8 -> d <= 30) /\ (mp < 10 <-> doy < 306).
Proof.
  intros H mp d. subst mp d. Z.div_mod_to_equations. lia.
Qed.

Lemma is_leap_true (y : Z) :
  y mod 4 = 0 -> (y mod 100 <> 0 \/ y mod 400 = 0) -> is_leap y = true.
Proof.
  intros H4 H. unfold is_leap. rewrite H4. simpl.
  destruct H as [H | H].
  - apply Z.eqb_neq in H. rewrite H. reflexivity.
  - rewrite H. simpl. apply orb_true_r.
Qed.

Lemma is_leap_period (y k : Z) : is_leap (y + k * 400) = is_leap y.
Proof.
  unfold is_leap.
  replace ((y + k * 400) mod 4) with (y mod 4)
    by (replace (k * 400) with (k * 100 * 4) by lia; now rewrite Z.mod_add).
  replace ((y + k * 400) mod 100) with (y mod 100)
    by (replace (k * 400) with (k * 4 * 100) by lia; now rewrite Z.mod_add).
  now rewrite Z.mod_add.
Qed.

Lemma daysInMonth_period (y k m : Z) : daysInMonth (y + k * 400) m = daysInMonth y m.
Proof. unfold daysInMonth. now rewrite is_leap_period. Qed.

Lemma daysInMonth_bounds (y m : Z) : 28 <= daysInMonth y m <= 31.
Proof.
  unfold daysInMonth.
  destruct (m =? 2); [destruct (is_leap y); lia |].
  destruct ((m =? 4) || (m =? 6) || (m =? 9) || (m =? 11)); lia.
Qed.

(** One era: the day found by [civil_of_doe] exists in its month and is the
    [doe]-th of the era. *)
Lemma civil_of_doe_spec (doe : Z) :
  0 <= doe < 146097 ->
  forall yr m d, civil_of_doe doe = (yr, m, d) ->
  let yoe := if m <=? 2 then yr - 1 else yr in
  0 <= yoe <= 399 /\ 1 <= m <= 12 /\ 1 <= d <= daysInMonth yr m /\
  yoe * 365 + yoe / 4 - yoe / 100
    + ((153 * (if 2 <? m then m - 3 else m + 9) + 2) / 5 + d - 1) = doe /\
  (doe < 146037 <-> yr <= 399).
Proof.
  intros Hdoe yr m d. unfold civil_of_doe.
  pose proof (year_of_era_day doe Hdoe) as Hy. cbv zeta in Hy.
  set (yoe := (doe - doe / 1460 + doe / 36524 - doe / 146096) / 365) in *.
  set (doy := doe - (365 * yoe + yoe / 4 - yoe / 100)) in *.
  destruct Hy as (Hyoe & Hdoy & Hleap & Hlast).
  pose proof (month_of_year_day doy Hdoy) as Hm. cbv zeta in Hm.
  set (mp := (5 * doy + 2) / 153) in *.
  set (dd := doy - (153 * mp + 2) / 5 + 1) in *.
  destruct Hm as (Hmp & Hd & Hback & Hfeb & Hfeb29 & H30 & Hmar).
  intros E. injection E as Eyr Em Ed. subst d. rewrite Em in Eyr.
  destruct (Z.ltb_spec mp 10) as [Hlt | Hge].
  - (* March to December *)
    assert (Hm3 : m = mp + 3) by lia. clear Em.
    destruct (Z.leb_spec m 2); [lia |].
    destruct (Z.ltb_spec 2 m); [| lia].
    assert (yr = yoe) by lia. clear Eyr. subst yr. cbv zeta.
    replace (m - 3) with mp by lia.
    repeat split; try lia.
    unfold daysInMonth.
    destruct (Z.eqb_spec m 2); [lia |].
    destruct (Z.eqb_spec m 4); simpl; [lia |].
    destruct (Z.eqb_spec m 6); simpl; [lia |].
    destruct (Z.eqb_spec m 9); simpl; [lia |].
    destruct (Z.eqb_spec m 11); simpl; lia.
  - (* January and February, of the next year *)
    assert (Hm9 : m = mp - 9) by lia. clear Em.
    destruct (Z.leb_spec m 2); [| lia].
    destruct (Z.ltb_spec 2 m); [lia |].
    assert (yr = yoe + 1) by lia. clear Eyr. subst yr. cbv zeta.
    replace (yoe + 1 - 1) with yoe by lia.
    replace (m + 9) with mp by lia.
    repeat split; try lia.
    unfold daysInMonth.
    destruct (Z.eqb_spec m 2) as [E2 | N2].
    + assert (Hmp11 : mp = 11) by lia.
      destruct (is_leap (yoe + 1)) eqn:L; [lia |].
      destruct (Z.eq_dec dd 29) as [E29 | N29]; [| lia].
      destruct (Hleap (Hfeb29 Hmp11 E29)) as [L4 L100].
      rewrite (is_leap_true _ L4 L100) in L. discriminate.
    + destruct (Z.eqb_spec m 4); simpl; [lia |].
      destruct (Z.eqb_spec m 6); simpl; [lia |].
      destruct (Z.eqb_spec m 9); simpl; [lia |].
      destruct (Z.eqb_spec m 11); simpl; lia.
Qed.

(** [civil_from_days] finds a day that exists, and [days_from_civil] maps it
    back; day numbers of the years 0 to 9999 are those from -719528 up to
    2932896. *)
Lemma civil_from_days_spec (z : Z) :
  forall y m d, civil_from_days z = (y, m, d) ->
  days_from_civil y m d = z /\ 1 <= m <= 12 /\ 1 <= d <= daysInMonth y m /\
  (-719528 <= z < 2932897 -> 0 <= y <= 9999).
Proof.
  intros y m d. unfold civil_from_days. cbv zeta.
  pose proof (Z.mod_pos_bound (z + 719468) 146097 ltac:(lia)) as Hr.
  pose proof (Z.div_mod (z + 719468) 146097 ltac:(lia)) as Hq.
  set (r := (z + 719468) mod 146097) in *.
  set (q := (z + 719468) / 146097) in *.
  destruct (civil_of_doe r) as [[yr m'] d'] eqn:E.
  intros E'. injection E' as Ey Em Ed. subst m' d'.
  pose proof (civil_of_doe_spec r Hr yr m d E) as Hs. cbv zeta in Hs.
  destruct Hs as (Hyoe & Hm & Hd & Hdoe & Hlast).
  repeat split; try lia.
  - unfold days_from_civil. cbv zeta.
    set (yoe := if m <=? 2 then yr - 1 else yr) in *.
    assert (Hy' : (if m <=? 2 then y - 1 else y) = yoe + q * 400).
    { subst yoe. destruct (m <=? 2); lia. }
    rewrite Hy'. rewrite Z.mod_add by lia. rewrite Z.div_add by lia.
    rewrite (Z.mod_small yoe 400) by lia. rewrite (Z.div_small yoe 400) by lia.
    lia.
  - subst y. rewrite daysInMonth_period. lia.
  - subst y. destruct (Z.leb_spec m 2); lia.
  - subst y. destruct (Z.leb_spec m 2); lia.
Qed.

(** *** Printing and reading dates *)

Arguments digit : simpl never.
Arguments msPerDay : simpl never.

Lemma digit_val_digit (k : Z) : 0 <= k <= 9 -> digit_val (digit k) = Some k.
Proof.
  intros H.
  assert (E : k = 0 \/ k = 1 \/ k = 2 \/ k = 3 \/ k = 4 \/ k = 5 \/ k = 6 \/ k = 7
              \/ k = 8 \/ k = 9) by lia.
  repeat (destruct E as [E | E]; [subst k; reflexivity |]). subst k. reflexivity.
Qed.

Lemma digit_val_mod10 (n : Z) : digit_val (digit (n mod 10)) = Some (n mod 10).
Proof. apply digit_val_digit. pose proof (Z.mod_pos_bound n 10). lia. Qed.

Lemma digit_not_T (n : Z) : Ascii.eqb (digit (n mod 10)) "T" = false.
Proof.
  pose proof (Z.mod_pos_bound n 10 ltac:(lia)) as H.
  set (k := n mod 10) in *.
  assert (E : k = 0 \/ k = 1 \/ k = 2 \/ k = 3 \/ k = 4 \/ k = 5 \/ k = 6 \/ k = 7
              \/ k = 8 \/ k = 9) by lia.
  repeat (destruct E as [E | E]; [rewrite E; reflexivity |]). rewrite E. reflexivity.
Qed.

Lemma no_T_app (a b : string) : no_T (a ++ b) = no_T a && no_T b.
Proof.
  induction a as [| c a IH]; simpl; [reflexivity |].
  rewrite IH. now rewrite andb_assoc.
Qed.

Lemma no_T_pad (w : nat) (n : Z) : no_T (pad w n) = true.
Proof.
  revert n. induction w as [| w IH]; intros n; simpl; [reflexivity |].
  rewrite no_T_app, IH. cbn [no_T andb]. now rewrite digit_not_T.
Qed.

Lemma no_T_isoDate (t : Z) : no_T (isoDate t) = true.
Proof.
  unfold isoDate. destruct (civil_from_days (t / msPerDay)) as [[y m] d].
  rewrite !no_T_app, !no_T_pad. simpl. rewrite andb_true_r.
  unfold isoYear. destruct ((0 <=? y) && (y <=? 9999)); [apply no_T_pad |].
  rewrite no_T_app, no_T_pad. now destruct (y <? 0).
Qed.

Lemma split_T_0_app (a b : string) : no_T a = true -> split_T_0 (a ++ String "T" b) = a.
Proof.
  induction a as [| c a IH]; simpl; intros H; [reflexivity |].
  apply andb_true_iff in H. destruct H as [Hc Ha].
  apply negb_true_iff in Hc. rewrite Hc. now rewrite IH.
Qed.

(** The date part of an ISO timestamp is the printed day. *)
Lemma split_T_0_toISOString (t : Z) (iso : string) :
  toISOString (Some t) = Ok iso -> split_T_0 iso = isoDate t.
Proof.
  simpl. intros H. injection H as <-.
  apply (split_T_0_app (isoDate t)). apply no_T_isoDate.
Qed.

Lemma pad2_eq (n : Z) :
  pad 2 n = String (digit (n / 10 mod 10)) (String (digit (n mod 10)) "").
Proof. reflexivity. Qed.

Lemma pad4_eq (n : Z) :
  pad 4 n = String (digit (n / 10 / 10 / 10 mod 10))
              (String (digit (n / 10 / 10 mod 10))
                 (String (digit (n / 10 mod 10)) (String (digit (n mod 10)) ""))).
Proof. reflexivity. Qed.

Lemma four_digit_year_day (t : Z) :
  four_digit_year t -> -719528 <= t / msPerDay < 2932897.
Proof.
  unfold four_digit_year, msPerDay. intros H. Z.div_mod_to_equations. lia.
Qed.

Lemma day_of_midnight (z : Z) : z * msPerDay / msPerDay = z.
Proof. unfold msPerDay. apply Z.div_mul. lia. Qed.

(** Reading back a printed day gives its midnight. *)
Lemma parse_iso_date_isoDate (t : Z) :
  four_digit_year t -> parse_iso_date (isoDate t) = Some (t / msPerDay * msPerDay).
Proof.
  intros Ht. apply four_digit_year_day in Ht.
  unfold isoDate. destruct (civil_from_days (t / msPerDay)) as [[y m] d] eqn:E.
  destruct (civil_from_days_spec _ _ _ _ E) as (Hback & Hm & Hd & Hy).
  specialize (Hy Ht).
  pose proof (daysInMonth_bounds y m) as Hdim.
  unfold isoYear.
  replace ((0 <=? y) && (y <=? 9999)) with true
    by (symmetry; apply andb_true_iff; split; apply Z.leb_le; lia).
  rewrite pad4_eq, !pad2_eq. cbn [append].
  unfold parse_iso_date. rewrite !digit_val_mod10.
  assert (Ey : 1000 * (y / 10 / 10 / 10 mod 10) + 100 * (y / 10 / 10 mod 10)
               + 10 * (y / 10 mod 10) + y mod 10 = y)
    by (Z.div_mod_to_equations; lia).
  assert (Em : 10 * (m / 10 mod 10) + m mod 10 = m) by (Z.div_mod_to_equations; lia).
  assert (Ed : 10 * (d / 10 mod 10) + d mod 10 = d) by (Z.div_mod_to_equations; lia).
  cbv zeta. rewrite Ey, Em, Ed.
  replace (dash "-") with true by reflexivity.
  replace (1 <=? m) with true by (symmetry; apply Z.leb_le; lia).
  replace (m <=? 12) with true by (symmetry; apply Z.leb_le; lia).
  replace (1 <=? d) with true by (symmetry; apply Z.leb_le; lia).
  replace (d <=? daysInMonth y m) with true by (symmetry; apply Z.leb_le; lia).
  simpl. now rewrite Hback.
Qed.

Lemma isoDate_midnight (t : Z) : isoDate (t / msPerDay * msPerDay) = isoDate t.
Proof. unfold isoDate. now rewrite day_of_midnight. Qed.

(** Two printed days are the same string only for the same day. *)
Lemma isoDate_inj (t u : Z) :
  four_digit_year t -> four_digit_year u -> isoDate t = isoDate u ->
  t / msPerDay = u / msPerDay.
Proof.
  intros Ht Hu E.
  pose proof (parse_iso_date_isoDate t Ht) as Pt.
  pose proof (parse_iso_date_isoDate u Hu) as Pu.
  rewrite E in Pt. rewrite Pt in Pu. injection Pu as Pu.
  unfold msPerDay in *. lia.
Qed.

End DateFacts.
Import DateFacts.

(** ** JavaScript values *)

Lemma strict_eq_str_spec (v : value) (s : string) :
  strict_eq_str v s = true <-> v = VStr s.
Proof.
  destruct v; simpl; try (split; [discriminate | intros H; discriminate H]).
  rewrite String.eqb_eq. split; [now intros -> | now intros [= ->]].
Qed.

Lemma strict_eq_str_false (v : value) (s : string) :
  v <> VStr s -> strict_eq_str v s = false.
Proof.
  intros H. destruct (strict_eq_str v s) eqn:E; [| reflexivity].
  apply strict_eq_str_spec in E. contradiction.
Qed.

Lemma get_not_nullish (v : value) (k : string) :
  nullish v = false -> exists x, get v k = Ok x.
Proof. destruct v; simpl; intros H; try discriminate; eauto. Qed.

Lemma truthy_not_nullish (v : value) : truthy v = true -> nullish v = false.
Proof. destruct v; simpl; intros H; try discriminate; reflexivity. Qed.

(** Only an object has a string under [role]. *)
Lemma role_string_truthy (v : value) (role : string) :
  get v "role" = Ok (VStr role) -> truthy v = true.
Proof. destruct v; simpl; intros H; try discriminate; reflexivity. Qed.

(** Induction on values, through the items of arrays. *)
Lemma value_induction (P : value -> Prop) :
  P VUndefined -> P VNull -> (forall b, P (VBool b)) -> (forall n, P (VNum n)) ->
  (forall s, P (VStr s)) -> (forall items, Forall P items -> P (VArr items)) ->
  (forall fields, P (VObj fields)) ->
  forall v, P v.
Proof.
  intros HU HN HB HZ HS HA HO.
  refine (fix IH (v : value) : P v :=
            match v with
            | VUndefined => HU
            | VNull => HN
            | VBool b => HB b
            | VNum n => HZ n
            | VStr s => HS s
            | VArr items =>
                HA items
                  ((fix go (l : list value) : Forall P l :=
                      match l with
                      | [] => Forall_nil P
                      | x :: rest => Forall_cons x (IH x) (go rest)
                      end) items)
            | VObj fields => HO fields
            end).
Qed.

(** The conversion to a string fails with a TypeError only. *)
Lemma ToString_throws (large : Z -> string) (v : value) (e : thrown) :
  ToString large v = Throw e -> e = TypeError.
Proof.
  revert e. induction v as [| | b | n | s | items IH | fields] using value_induction;
    intros e H; cbn in H; try (destruct b; discriminate H); try discriminate H.
  - match type of H with
    | match ?parts items with _ => _ end = _ =>
        assert (Hp : forall e', parts items = Throw e' -> e' = TypeError);
        [| destruct (parts items) as [ps | e'] eqn:E;
           [discriminate H | injection H as <-; now apply Hp]]
    end.
    induction IH as [| x rest Hx _ IHrest]; intros e' H'; [discriminate H' |].
    cbn in H'.
    destruct (match x with VUndefined | VNull => Ok "" | _ => ToString large x end)
      as [px | ex] eqn:Ex.
    + match type of H' with
      | match ?t with _ => _ end = _ => destruct t as [ps | e''] eqn:Er
      end; [discriminate H' |].
      injection H' as <-. now apply IHrest.
    + injection H' as <-. destruct x; try discriminate Ex; now apply Hx.
  - destruct (has_own "toString" fields); [now injection H as <- | discriminate H].
Qed.

(** ** Running handlers *)

Arguments toISOString : simpl never.
Arguments services : simpl never.
Arguments ToString : simpl never.
Arguments to_Number : simpl never.

Ltac break_match :=
  match goal with
  | |- context [match ?x with _ => _ end] =>
      lazymatch x with
      | context [match _ with _ => _ end] => fail
      | _ => destruct x eqn:?
      end
  end.

Ltac run_handler h :=
  unfold run, h, now_iso, json, fulfilled_or, allSettled4, settle, catch_null,
    axios_get, axios_post, axios, Date_now, log, try_catch, bind, ret, lift, init;
  cbn.

Ltac finish_proceeds :=
  repeat (break_match; cbn);
  try (split; [reflexivity | eexists; split; [reflexivity | auto]]).

Lemma toISOString_Some (t : Z) : exists iso, toISOString (Some t) = Ok iso.
Proof. unfold toISOString. eauto. Qed.

(** ** GET /api/dashboard/admin *)

(** C1, as the handler has it: the overview is refused, before any backend is
    called, exactly to a request that carries an identity whose role is not
    [admin]; an admin and a request with no identity at all both pass. *)
Theorem adminDashboard_access (env : string -> option string) (req : request) (w : world) :
  let r := run (adminDashboard env req) w in
  (forall role, truthy (user req) = true -> get (user req) "role" = Ok role ->
     role <> VStr "admin" -> r = (Ok (forbidden "Admin access required"), init)) /\
  (truthy (user req) = false \/ get (user req) "role" = Ok (VStr "admin") ->
     proceeds (admin_calls env req) r).
Proof.
  cbv zeta. split.
  - intros role Hu Hr Hne. run_handler adminDashboard.
    rewrite Hu, Hr. cbn. rewrite (strict_eq_str_false _ _ Hne). reflexivity.
  - intros H.
    unfold proceeds, admin_calls. run_handler adminDashboard.
    generalize dependent (services env). intros svc.
    assert (E : (if truthy (user req) then
                   match get (user req) "role" with
                   | Ok role => negb (strict_eq_str role "admin")
                   | Throw _ => true
                   end
                 else false) = false).
    { destruct H as [H | H]; [now rewrite H |]. rewrite H. now destruct (truthy (user req)). }
    destruct (truthy (user req)); [destruct (get (user req) "role"); [| discriminate] |];
      cbn in *; try rewrite E; cbn.
    all: finish_proceeds.
Qed.

Lemma adminDashboard_access_witness :
  run (adminDashboard no_env (request_of None "" (VObj []) (identity "t1" "trainer"))) all_down
  = (Ok (forbidden "Admin access required"), init).
Proof.
  apply (proj1 (adminDashboard_access no_env
                  (request_of None "" (VObj []) (identity "t1" "trainer")) all_down)
           (VStr "trainer")); [reflexivity | reflexivity | discriminate].
Defined.

(** C1 as stated fails: a request with no identity is granted the overview,
    and all four backend calls go out. *)
Lemma admin_overview_open_without_identity :
  truthy (user anonymous) = false /\
  exists body st,
    run (adminDashboard no_env anonymous) all_down = (Ok (mkResponse 200 body), st) /\
    get body "success" = Ok (VBool true) /\
    calls st = admin_calls no_env anonymous /\
    List.length (calls st) = 4%nat.
Proof.
  split; [reflexivity |]. do 2 eexists. split; [reflexivity |].
  repeat split.
Qed.

(** ** GET /api/dashboard/client/:id *)

(** C6: a client is refused any dashboard but its own, before any backend
    is called; on its own id the fan-out goes out; trainers and admins are
    never refused here. *)
Theorem clientDashboard_access (env : string -> option string) (req : request) (w : world)
    (role : string) (uid : value) :
  get (user req) "role" = Ok (VStr role) ->
  get (user req) "id" = Ok uid ->
  let r := run (clientDashboard env req) w in
  (role = "client" -> uid <> VStr (params_id req) ->
     r = (Ok (forbidden "Cannot access other client dashboards"), init)) /\
  (role = "client" -> uid = VStr (params_id req) -> proceeds (client_calls env req) r) /\
  (role = "trainer" \/ role = "admin" -> proceeds (client_calls env req) r).
Proof.
  intros Hrole Hid. cbv zeta.
  pose proof (role_string_truthy _ _ Hrole) as Hu.
  split; [| split].
  - intros -> Hne. run_handler clientDashboard.
    rewrite Hu, Hrole. cbn. rewrite Hid. cbn.
    rewrite (strict_eq_str_false _ _ Hne). reflexivity.
  - intros -> ->. unfold proceeds, client_calls. run_handler clientDashboard.
    generalize dependent (services env). intros svc.
    rewrite Hu, Hrole. cbn. rewrite Hid. cbn. rewrite String.eqb_refl. cbn.
    finish_proceeds.
  - intros H. unfold proceeds, client_calls. run_handler clientDashboard.
    generalize dependent (services env). intros svc.
    rewrite Hu, Hrole. cbn.
    replace (String.eqb role "client") with false
      by (destruct H as [-> | ->]; reflexivity).
    cbn. finish_proceeds.
Qed.

Lemma clientDashboard_access_witness :
  run (clientDashboard no_env (request_of None "c2" (VObj []) (identity "c1" "client"))) all_down
  = (Ok (forbidden "Cannot access other client dashboards"), init).
Proof.
  apply (proj1 (clientDashboard_access no_env
                  (request_of None "c2" (VObj []) (identity "c1" "client")) all_down
                  "client" (VStr "c1") eq_refl eq_refl));
    [reflexivity | discriminate].
Defined.

(** ** The token middleware *)

(** C3: without a credential header, with one that is not of the Bearer
    form, or with a token that [jwt.verify] rejects for whatever reason, the
    middleware hands the request on exactly as it came, so with no identity
    attached; it answers nothing and calls no backend. *)
Theorem verifyToken_soft (env : string -> option string)
    (jwt_verify : string -> string -> string -> string -> outcome value)
    (req : request) (w : world) (s : state) :
  no_credential env jwt_verify req ->
  exists lg,
    verifyToken env jwt_verify req w s
    = (Ok (Next req), mkState (calls s) (ticks s) (logs s ++ lg)).
Proof.
  intros H. unfold verifyToken. destruct s as [cs tk lg0].
  destruct H as [Habs | h Hh Hnb | h e Hh Hb Hv].
  - rewrite Habs. exists []. unfold ret. cbn. now rewrite app_nil_r.
  - rewrite Hh, Hnb. rewrite orb_true_r. exists []. unfold ret. cbn. now rewrite app_nil_r.
  - rewrite Hh, Hb.
    assert (Ht : truthy (VStr h) = true) by (destruct h; [discriminate | reflexivity]).
    rewrite Ht. cbn [negb orb]. rewrite Hv.
    eexists. unfold bind, log, ret. cbn. reflexivity.
Qed.

Lemma verifyToken_soft_witness :
  exists lg,
    verifyToken no_env one_token_jwt
      (request_of (Some "Bearer forged") "c1" (VObj []) VUndefined) all_down init
    = (Ok (Next (request_of (Some "Bearer forged") "c1" (VObj []) VUndefined)),
       mkState [] O ([] ++ lg)).
Proof.
  apply (verifyToken_soft no_env one_token_jwt
           (request_of (Some "Bearer forged") "c1" (VObj []) VUndefined) all_down init).
  apply (verification_fails no_env one_token_jwt _ "Bearer forged" (JwtError BadSignature));
    reflexivity.
Defined.

(** ** POST /api/bookings/validated *)

Lemma get_field (req : request) (k : string) :
  nullish (body req) = false -> get (body req) k = Ok (field req k).
Proof.
  unfold field. intros H. destruct (get_not_nullish _ k H) as [x ->]. reflexivity.
Qed.

(** C4, as the handler has it, for a [trainer_id] whose text [trainer] goes
    into the address of the lookup.  Whatever goes wrong with the trainer
    lookup, a transport fault or an error answer of the user backend, is
    swallowed into INVALID_TRAINER at 400 and the create call is never made.
    At the create call a transport fault gives BOOKING_FAILED at 500, and an
    error answer of the scheduling backend is passed on with its status and
    body. *)
Theorem bookingsValidated_faults (env : string -> option string) (large : Z -> string)
    (req : request) (w : world) (trainer : string) :
  nullish (body req) = false ->
  ToString large (field req "trainer_id") = Ok trainer ->
  let r := run (bookingsValidated env large req) w in
  (forall resp, backend w (trainer_call env req trainer) = Reject resp ->
     r = (Ok invalid_trainer, mkState [trainer_call env req trainer] O [])) /\
  (forall t d, backend w (trainer_call env req trainer) = Resolve t ->
     get (data t) "data" = Ok d -> get d "role" = Ok (VStr "trainer") ->
     (backend w (create_call env req) = Reject None ->
        r = (Ok booking_failed,
             mkState [trainer_call env req trainer; create_call env req] O
               [booking_error_log])) /\
     (forall f, backend w (create_call env req) = Reject (Some f) ->
        r = (Ok (mkResponse (status f) (data f)),
             mkState [trainer_call env req trainer; create_call env req] O
               [booking_error_log]))).
Proof.
  intros Hb Htext. cbv zeta.
  unfold trainer_call, create_call.
  run_handler bookingsValidated.
  rewrite !(get_field req _ Hb). cbn. rewrite Htext. cbn.
  generalize dependent (services env). intros svc.
  split.
  - intros resp ->. reflexivity.
  - intros t d -> Hd Hr. cbn. rewrite Hd. cbn. rewrite Hr. cbn. split.
    + intros ->. reflexivity.
    + intros f ->. reflexivity.
Qed.

Lemma bookingsValidated_faults_witness :
  run (bookingsValidated no_env large_stub a_booking)
    (trainer_known (Reject (Some slot_conflict)))
  = (Ok slot_conflict,
     mkState [trainer_call no_env a_booking "t7"; create_call no_env a_booking] O
       [booking_error_log]).
Proof.
  refine (proj2 (proj2 (bookingsValidated_faults no_env large_stub a_booking
                          (trainer_known (Reject (Some slot_conflict))) "t7"
                          eq_refl eq_refl)
                   _ _ eq_refl eq_refl eq_refl) slot_conflict eq_refl).
Defined.

(** C4 as stated fails at the trainer step: with the user backend
    unreachable the answer is INVALID_TRAINER at 400, not BOOKING_FAILED. *)
Lemma trainer_step_fault_is_invalid_trainer :
  backend all_down (trainer_call no_env a_booking "t7") = Reject None /\
  run (bookingsValidated no_env large_stub a_booking) all_down
  = (Ok invalid_trainer, mkState [trainer_call no_env a_booking "t7"] O []) /\
  invalid_trainer <> booking_failed /\ status invalid_trainer = 400.
Proof. repeat split; try reflexivity. discriminate. Qed.

(** C9: whatever the request and the backends, a call that carries a body
    (only the create call does) carries exactly the seven booking fields,
    each with the value of the inbound body, and no [client_id]. *)
Theorem create_call_fields (env : string -> option string) (large : Z -> string)
    (req : request) (w : world) :
  Forall (forwards_only_booking_fields req)
    (calls (snd (run (bookingsValidated env large req) w))).
Proof.
  run_handler bookingsValidated.
  generalize dependent (services env). intros svc.
  destruct (body req) eqn:Eb; cbn.
  all: repeat (break_match; cbn).
  all: repeat constructor.
  all: try (intros k Hk; cbn in Hk; rewrite Eb;
            repeat (destruct Hk as [<- | Hk]; [reflexivity |]); contradiction).
Qed.

Lemma create_call_fields_witness :
  Forall (forwards_only_booking_fields a_booking)
    (calls (snd (run (bookingsValidated no_env large_stub a_booking)
                   (trainer_known (Resolve (mkResponse 201 (VObj []))))))) /\
  In (create_call no_env a_booking)
    (calls (snd (run (bookingsValidated no_env large_stub a_booking)
                   (trainer_known (Resolve (mkResponse 201 (VObj []))))))) /\
  get (body a_booking) "client_id" = Ok (VStr "c9").
Proof.
  split; [apply create_call_fields |].
  split; [right; left; reflexivity | reflexivity].
Defined.

(** ** Rate-limit options *)

Lemma is_digit_radix (c : ascii) :
  is_digit c = true -> radix_digit 10 c = Some (Z.of_nat (nat_of_ascii c) - 48).
Proof.
  unfold is_digit, radix_digit. cbv zeta. intros H. rewrite H.
  apply andb_true_iff in H. destruct H as [H1 H2].
  apply Z.leb_le in H1. apply Z.leb_le in H2.
  replace (Z.of_nat (nat_of_ascii c) - 48 <? 10) with true; [reflexivity |].
  symmetry. apply Z.ltb_lt. lia.
Qed.

Lemma not_digit_radix (c : ascii) : is_digit c = false -> radix_digit 10 c = None.
Proof.
  unfold is_digit, radix_digit. cbv zeta. intros H. rewrite H.
  set (n := Z.of_nat (nat_of_ascii c)).
  destruct ((97 <=? n) && (n <=? 122)) eqn:E1.
  - apply andb_true_iff in E1. destruct E1 as [E1 _]. apply Z.leb_le in E1.
    replace (n - 87 <? 10) with false; [reflexivity |]. symmetry. apply Z.ltb_ge. lia.
  - destruct ((65 <=? n) && (n <=? 90)) eqn:E2.
    + apply andb_true_iff in E2. destruct E2 as [E2 _]. apply Z.leb_le in E2.
      replace (n - 55 <? 10) with false; [reflexivity |]. symmetry. apply Z.ltb_ge. lia.
    + now rewrite Z.ltb_irrefl.
Qed.

Lemma digit_plain (c : ascii) :
  is_digit c = true ->
  is_space c = false /\ Ascii.eqb c "-" = false /\ Ascii.eqb c "+" = false /\ is_x c = false.
Proof.
  intros H. unfold is_digit in H. cbv zeta in H.
  apply andb_true_iff in H. destruct H as [H1 H2].
  apply Z.leb_le in H1. apply Z.leb_le in H2.
  repeat split.
  - unfold is_space. cbv zeta.
    destruct (Nat.leb_spec 9 (nat_of_ascii c)), (Nat.leb_spec (nat_of_ascii c) 13),
      (Nat.eqb_spec (nat_of_ascii c) 32), (Nat.eqb_spec (nat_of_ascii c) 160);
      cbn; try reflexivity; lia.
  - destruct (Ascii.eqb_spec c "-"); [subst c; cbn in *; lia | reflexivity].
  - destruct (Ascii.eqb_spec c "+"); [subst c; cbn in *; lia | reflexivity].
  - unfold is_x.
    destruct (Ascii.eqb_spec c "x"); [subst c; cbn in *; lia |].
    destruct (Ascii.eqb_spec c "X"); [subst c; cbn in *; lia | reflexivity].
Qed.

Lemma digits_prefix_all_digits (s : string) (a : Z) :
  all_digits s = true -> digits_prefix 10 s (Some a) = Some (decimal_value_from a s).
Proof.
  revert a. induction s as [| c s IH]; intros a H; [reflexivity |].
  cbn in H. apply andb_true_iff in H. destruct H as [Hc Hs].
  cbn [digits_prefix decimal_value_from]. rewrite (is_digit_radix c Hc).
  now rewrite IH.
Qed.

(** A double holds the integers up to 2^53 as they are. *)
Lemma to_Number_exact (n : Z) : held_exactly n -> to_Number n = Finite n.
Proof.
  unfold held_exactly, to_Number. intros H. cbv zeta.
  destruct (Z.eq_dec (Z.abs n) 9007199254740992) as [E | E].
  - assert (Hn : n = 9007199254740992 \/ n = -9007199254740992) by lia.
    destruct Hn as [-> | ->]; vm_compute; reflexivity.
  - assert (L : Z.log2 (Z.abs n) - 52 <= 0).
    { destruct (Z.eq_dec (Z.abs n) 0) as [Z0 | NZ]; [rewrite Z0; cbn; lia |].
      assert (Z.log2 (Z.abs n) < 53); [| lia].
      apply Z.log2_lt_pow2; [lia |]. change (2 ^ 53) with 9007199254740992. lia. }
    apply Z.leb_le in L. now rewrite L.
Qed.

(** Rounding to a double gives zero for zero only. *)
Lemma to_Number_nonzero (n : Z) : nonzero (to_Number n) = negb (n =? 0).
Proof.
  unfold to_Number. cbv zeta.
  destruct (Z.leb_spec (Z.log2 (Z.abs n) - 52) 0) as [L | L]; [reflexivity |].
  assert (Hn : n <> 0).
  { intros ->. cbn in L. lia. }
  replace (n =? 0) with false by (symmetry; now apply Z.eqb_neq).
  set (e := Z.log2 (Z.abs n) - 52) in *.
  assert (Hp : 0 < 2 ^ e) by (apply Z.pow_pos_nonneg; lia).
  assert (Hq : 1 <= Z.abs n / 2 ^ e).
  { apply Z.div_le_lower_bound; [exact Hp |]. rewrite Z.mul_1_r.
    transitivity (2 ^ Z.log2 (Z.abs n)).
    - apply Z.pow_le_mono_r; lia.
    - apply Z.log2_spec. lia. }
  set (q := Z.abs n / 2 ^ e) in *.
  set (q' := if (2 * (Z.abs n mod 2 ^ e) <? 2 ^ e)
                || ((2 * (Z.abs n mod 2 ^ e) =? 2 ^ e) && Z.even q)
             then q else q + 1).
  assert (Hq' : 1 <= q') by (subst q'; destruct (_ || _); lia).
  destruct (q' * 2 ^ e <? 2 ^ 1024); [| reflexivity].
  cbn [nonzero]. apply negb_true_iff, Z.eqb_neq.
  assert (Hs : Z.sgn n = 1 \/ Z.sgn n = -1) by lia.
  destruct Hs as [-> | ->]; nia.
Qed.

(** On a string of decimal digits [parseInt] reads the whole number: no
    blank, sign or [0x] prefix is taken off. *)
Lemma parseInt_numeral (s : string) :
  s <> "" -> all_digits s = true -> parseInt s = Some (to_Number (decimal_value s)).
Proof.
  intros Hne Hd. destruct s as [| c s]; [contradiction |].
  cbn in Hd. apply andb_true_iff in Hd. destruct Hd as [Hc Hs].
  destruct (digit_plain c Hc) as (Hsp & Hm & Hp & Hx).
  unfold parseInt. cbn [trim_start]. rewrite Hsp. cbv zeta. rewrite Hm, Hp.
  assert (Hr : match s with
               | String x rest => if Ascii.eqb c "0" && is_x x then (16, rest) else (10, String c s)
               | EmptyString => (10, String c s)
               end = (10, String c s)).
  { destruct s as [| x rest]; [reflexivity |].
    cbn in Hs. apply andb_true_iff in Hs. destruct Hs as [Hxd _].
    destruct (digit_plain x Hxd) as (_ & _ & _ & Hxx). rewrite Hxx.
    now rewrite andb_false_r. }
  rewrite Hr. cbn [digits_prefix]. rewrite (is_digit_radix c Hc).
  rewrite digits_prefix_all_digits by assumption.
  unfold decimal_value. cbn [decimal_value_from].
  rewrite Z.mul_1_l, Z.mul_0_l, Z.add_0_l. reflexivity.
Qed.

Lemma parseInt_not_a_number (s : string) : not_a_number s -> parseInt s = None.
Proof.
  intros H. unfold parseInt. unfold not_a_number in H.
  destruct (trim_start s) as [| c rest] eqn:E; [reflexivity |].
  destruct (H c rest eq_refl) as (Hd & Hm & Hp).
  cbv zeta.
  destruct (Ascii.eqb_spec c "-"); [contradiction |].
  destruct (Ascii.eqb_spec c "+"); [contradiction |].
  assert (H0 : Ascii.eqb c "0" = false).
  { destruct (Ascii.eqb_spec c "0"); [subst c; discriminate | reflexivity]. }
  destruct rest as [| x rest']; rewrite ?H0; cbn [andb digits_prefix];
    now rewrite (not_digit_radix c Hd).
Qed.

Lemma parseInt_env_or_rule env name fb : override_rule env name fb (parseInt_env_or env name fb).
Proof.
  unfold override_rule, parseInt_env_or. split; [| split; [| split]].
  - intros ->. reflexivity.
  - intros s -> (Hne & Hd) Hnz. rewrite (parseInt_numeral s Hne Hd).
    rewrite to_Number_nonzero. apply Z.eqb_neq in Hnz. rewrite Hnz. cbn [negb].
    split; [reflexivity | apply to_Number_exact].
  - intros s -> (Hne & Hd) Hz. rewrite (parseInt_numeral s Hne Hd).
    rewrite to_Number_nonzero. now rewrite Hz.
  - intros s -> Hn. now rewrite (parseInt_not_a_number s Hn).
Qed.

(** C8, as the options resolve: unset, the window is 60000 ms and the ceiling
    1000; a decimal override replaces the default by the number it writes,
    as a double (so by the number itself up to 2^53, by the nearest double
    above), unless it writes zero, which is falsy and falls back like a
    missing value; an override with no number in front falls back to the
    default. *)
Theorem rate_limit_config (env : string -> option string) :
  override_rule env "RATE_LIMIT_WINDOW_MS" 60000 (windowMs (limiter env)) /\
  override_rule env "RATE_LIMIT_MAX_REQUESTS" 1000 (max (limiter env)).
Proof. split; apply parseInt_env_or_rule. Qed.

Lemma rate_limit_config_witness :
  windowMs (limiter (env_with "RATE_LIMIT_WINDOW_MS" "120000")) = Finite 120000 /\
  max (limiter (env_with "RATE_LIMIT_WINDOW_MS" "120000")) = Finite 1000 /\
  windowMs (limiter (env_with "RATE_LIMIT_WINDOW_MS" "invalid")) = Finite 60000 /\
  max (limiter (env_with "RATE_LIMIT_MAX_REQUESTS" "9007199254740993"))
  = Finite 9007199254740992.
Proof.
  split; [| split; [| split]].
  - apply (proj1 (proj2 (proj1 (rate_limit_config (env_with "RATE_LIMIT_WINDOW_MS" "120000"))))
             "120000" eq_refl).
    + split; [discriminate | reflexivity].
    + discriminate.
    + unfold held_exactly. vm_compute. discriminate.
  - apply (proj1 (proj2 (rate_limit_config (env_with "RATE_LIMIT_WINDOW_MS" "120000")))).
    reflexivity.
  - apply (proj2 (proj2 (proj2 (proj1 (rate_limit_config (env_with "RATE_LIMIT_WINDOW_MS" "invalid")))))
             "invalid" eq_refl).
    intros c rest E. injection E as <- <-. repeat split; discriminate.
  - pose proof (proj1 (proj2 (proj2 (rate_limit_config
                         (env_with "RATE_LIMIT_MAX_REQUESTS" "9007199254740993"))))) as R.
    destruct (R "9007199254740993") as [H _].
    + reflexivity.
    + split; [discriminate | reflexivity].
    + vm_compute. discriminate.
    + rewrite H. vm_compute. reflexivity.
Defined.

(** C8 as stated fails for the numeric override [0]: the default stays. *)
Lemma zero_override_keeps_default :
  numeral "0" /\ decimal_value "0" = 0 /\
  windowMs (limiter (env_with "RATE_LIMIT_WINDOW_MS" "0")) = Finite 60000 /\
  max (limiter (env_with "RATE_LIMIT_MAX_REQUESTS" "0")) = Finite 1000.
Proof. repeat split; try reflexivity; try discriminate. Qed.

(** ** Partial failure of the fan-out *)

Lemma allSettled4_axios (a b c d : call) (w : world) (s : state) :
  allSettled4 (axios a) (axios b) (axios c) (axios d) w s
  = (Ok (slot_of w a, slot_of w b, slot_of w c, slot_of w d),
     mkState (calls s ++ [a; b; c; d]) (ticks s) (logs s)).
Proof.
  unfold allSettled4, settle, axios, bind, ret, slot_of. cbn.
  destruct (backend w a), (backend w b), (backend w c), (backend w d); cbn;
    rewrite <- !app_assoc; reflexivity.
Qed.

Lemma data_data_readable (v : response) :
  nullish (data v) = false -> exists x, data_data v = Ok x.
Proof. apply get_not_nullish. Qed.

Lemma total_count_readable (v : response) :
  nullish (data v) = false -> exists x, total_count v = Ok x.
Proof.
  intros H. unfold total_count.
  destruct (get_not_nullish _ "pagination" H) as [p ->].
  destruct p; cbn; eauto.
Qed.

Lemma fulfilled_or_readable (slot : settled) (extract : response -> outcome value)
    (fallback : value) (w : world) (s : state) :
  (forall v, nullish (data v) = false -> exists x, extract v = Ok x) ->
  readable slot ->
  fulfilled_or slot extract fallback w s = (Ok (slot_field extract fallback slot), s).
Proof.
  intros Hex Hr. destruct slot as [v | e]; cbn; [| reflexivity].
  unfold lift. destruct (Hex v Hr) as [x ->]. reflexivity.
Qed.

Ltac run_partially h :=
  unfold run, h, now_iso, json, axios_get, Date_now, log, try_catch, bind, ret, lift, init.

(** C2, as the two dashboards assemble their payload.  When the request is
    not refused, two of the four calls fulfil and two reject, and no fulfilled
    body is [null] or [undefined], the answer is the success envelope at 200
    whose fields hold what each fulfilled call brought and the fallback
    ([null], the empty list, 0) for each rejected one. *)
Theorem partial_failure_absorbed (env : string -> option string) (req : request) (w : world)
    (s1 s2 s3 s4 : settled) :
  fulfilled_count [s1; s2; s3; s4] = 2%nat ->
  readable s1 -> readable s2 -> readable s3 -> readable s4 ->
  exists ts, toISOString (Some (clock w O)) = Ok ts /\
    (fst (run (clientDashboard env req) w)
       <> Ok (forbidden "Cannot access other client dashboards") ->
     List.map (slot_of w) (client_calls env req) = [s1; s2; s3; s4] ->
     run (clientDashboard env req) w
     = (Ok (mkResponse 200
              (success (VObj [("profile", slot_field data_data VNull s1);
                              ("active_programs", slot_field data_data (VArr []) s2);
                              ("upcoming_bookings", slot_field data_data (VArr []) s3);
                              ("progress_summary", slot_field data_data VNull s4)]) ts)),
        mkState (client_calls env req) 1 [])) /\
    (fst (run (adminDashboard env req) w) <> Ok (forbidden "Admin access required") ->
     List.map (slot_of w) (admin_calls env req) = [s1; s2; s3; s4] ->
     run (adminDashboard env req) w
     = (Ok (mkResponse 200
              (success (VObj [("total_users", slot_field total_count (VNum 0) s1);
                              ("total_trainers", slot_field total_count (VNum 0) s2);
                              ("total_clients", slot_field total_count (VNum 0) s3);
                              ("total_programs", slot_field total_count (VNum 0) s4)]) ts)),
        mkState (admin_calls env req) 1 [])).
Proof.
  intros _ R1 R2 R3 R4.
  destruct (toISOString_Some (clock w O)) as [ts Hts]. exists ts. split; [exact Hts |].
  split.
  - unfold client_calls. cbv zeta. cbn [List.map].
    run_partially clientDashboard.
    generalize dependent (services env). intros svc.
    intros Hnot Hslots. injection Hslots as E1 E2 E3 E4.
    revert Hnot.
    destruct (user req) as [| | [|] | n | u | l | fs]; cbn -[allSettled4 fulfilled_or toISOString].
    all: try destruct (negb (n =? 0)); try destruct (negb (String.eqb u ""));
      try destruct (strict_eq_str (lookup "role" fs) "client");
      try destruct (strict_eq_str (lookup "id" fs) (params_id req));
      cbn -[allSettled4 fulfilled_or toISOString].
    all: try (intros Hnot; exfalso; apply Hnot; reflexivity).
    all: intros _; rewrite allSettled4_axios; rewrite E1, E2, E3, E4;
      rewrite !(fulfilled_or_readable _ data_data _ _ _ data_data_readable) by assumption;
      cbn [calls ticks logs app]; rewrite Hts; reflexivity.
  - unfold admin_calls. cbv zeta. cbn [List.map].
    run_partially adminDashboard.
    generalize dependent (services env). intros svc.
    intros Hnot Hslots. injection Hslots as E1 E2 E3 E4.
    revert Hnot.
    destruct (user req) as [| | [|] | n | u | l | fs]; cbn -[allSettled4 fulfilled_or toISOString].
    all: try destruct (negb (n =? 0)); try destruct (negb (String.eqb u ""));
      try destruct (strict_eq_str (lookup "role" fs) "admin");
      cbn -[allSettled4 fulfilled_or toISOString].
    all: try (intros Hnot; exfalso; apply Hnot; reflexivity).
    all: intros _; rewrite allSettled4_axios; rewrite E1, E2, E3, E4;
      rewrite !(fulfilled_or_readable _ total_count _ _ _ total_count_readable) by assumption;
      cbn [calls ticks logs app]; rewrite Hts; reflexivity.
Qed.

Lemma partial_failure_absorbed_witness :
  exists ts, toISOString (Some an_evening) = Ok ts /\
    run (clientDashboard no_env anonymous) (two_up a_profile no_programs)
    = (Ok (mkResponse 200
             (success (VObj [("profile", VObj [("name", VStr "John Doe")]);
                             ("active_programs", VArr []);
                             ("upcoming_bookings", VArr []);
                             ("progress_summary", VNull)]) ts)),
       mkState (client_calls no_env anonymous) 1 []).
Proof.
  destruct (partial_failure_absorbed no_env anonymous (two_up a_profile no_programs)
              (Fulfilled (mkResponse 200 a_profile)) (Fulfilled (mkResponse 200 no_programs))
              (Rejected (AxiosError None)) (Rejected (AxiosError None))
              eq_refl eq_refl eq_refl I I) as [ts [Hts [Hclient _]]].
  exists ts. split; [exact Hts |].
  apply Hclient; [vm_compute; discriminate | reflexivity].
Defined.

(** C2 as stated fails when a fulfilled call brings the body [null]: reading
    its [data] throws and the whole dashboard answers DASHBOARD_ERROR at 500,
    although two calls fulfilled and two were rejected. *)
Lemma null_body_fails_the_dashboard :
  fulfilled_count (List.map (slot_of (two_up VNull no_programs)) (client_calls no_env anonymous))
  = 2%nat /\
  run (clientDashboard no_env anonymous) (two_up VNull no_programs)
  = (Ok dashboard_error,
     mkState (client_calls no_env anonymous) O [mkLog "error" "Client dashboard error:"]) /\
  status dashboard_error = 500 /\
  get (data dashboard_error) "success" = Ok (VBool false).
Proof. repeat split. Qed.

(** ** Response envelopes *)

Arguments todaySchedule : simpl never.

Ltac run_handler_in H h :=
  unfold run, h, now_iso, json, fulfilled_or, allSettled4, settle, catch_null,
    axios_get, axios_post, axios, Date_now, log, try_catch, bind, ret, lift, init in H;
  cbn in H.

Ltac break_hyp H :=
  match type of H with
  | context [match ?x with _ => _ end] =>
      lazymatch x with
      | context [match _ with _ => _ end] => fail
      | _ => destruct x eqn:?
      end
  end.

Ltac solve_reply H :=
  repeat (break_hyp H; cbn in H);
  try discriminate H;
  injection H as <- _; repeat split.

(** C5, as the gateway writes its answers.  Each one has a boolean [success]
    and either [data] or an [error] with a code and a message.  A top-level
    [timestamp] comes exactly with the successful dashboard results; the
    proxy error, the 404 and the internal error carry theirs inside [error];
    the refusals, the rate-limit denial and DASHBOARD_ERROR carry none. *)
Theorem gateway_reply_shape (env : string -> option string)
    (Date_parse_other : string -> option Z) (large : Z -> string) (res : response) :
  gateway_reply env Date_parse_other large res ->
  envelope (data res) = true /\
  top_timestamp (data res) = succeeded (data res) /\
  error_timestamp (data res)
  = code_among ["SERVICE_UNAVAILABLE"; "NOT_FOUND"; "INTERNAL_ERROR"] (data res).
Proof.
  intros G. destruct G as [ | w s r s' H | req w s r s' H | cid w s r s' H
                            | req w s r s' H | req w s r s' H | req w s r s' H ].
  - repeat split.
  - run_handler_in H onError. solve_reply H.
  - run_handler_in H notFound. solve_reply H.
  - run_handler_in H errorHandler. solve_reply H.
  - run_handler_in H clientDashboard. generalize dependent (services env). intros svc H.
    solve_reply H.
  - run_handler_in H trainerDashboard. generalize dependent (services env). intros svc H.
    solve_reply H.
  - run_handler_in H adminDashboard. generalize dependent (services env). intros svc H.
    solve_reply H.
Qed.

Lemma gateway_reply_shape_witness :
  envelope (data (rate_limit_denial no_env)) = true /\
  top_timestamp (data (rate_limit_denial no_env)) = succeeded (data (rate_limit_denial no_env)) /\
  error_timestamp (data (rate_limit_denial no_env))
  = code_among ["SERVICE_UNAVAILABLE"; "NOT_FOUND"; "INTERNAL_ERROR"]
      (data (rate_limit_denial no_env)).
Proof.
  apply (gateway_reply_shape no_env no_other_dates large_stub (rate_limit_denial no_env)
           (limiter_reply no_env no_other_dates large_stub)).
Defined.

(** C5 as stated fails: the refusal of the client dashboard and the
    rate-limit denial have no [timestamp], at the top or inside [error]. *)
Lemma refusal_carries_no_timestamp :
  gateway_reply no_env no_other_dates large_stub
    (forbidden "Cannot access other client dashboards") /\
  get (data (forbidden "Cannot access other client dashboards")) "timestamp" = Ok VUndefined /\
  error_timestamp (data (forbidden "Cannot access other client dashboards")) = false /\
  get (data (rate_limit_denial no_env)) "timestamp" = Ok VUndefined /\
  error_timestamp (data (rate_limit_denial no_env)) = false.
Proof.
  split; [| repeat split].
  apply (client_reply no_env no_other_dates large_stub
           (request_of None "c2" (VObj []) (identity "c1" "client")) all_down init _ init).
  reflexivity.
Qed.

(** ** The schedule of the day *)

Lemma filterM_ok (p : value -> outcome bool) (q : value -> bool) (items : list value) :
  (forall b, In b items -> p b = Ok (q b)) -> filterM p items = Ok (List.filter q items).
Proof.
  induction items as [| b items IH]; intros H; [reflexivity |].
  cbn. rewrite (H b (or_introl eq_refl)).
  rewrite IH by (intros x Hx; apply H; now right).
  reflexivity.
Qed.

Lemma filterM_throws (p : value -> outcome bool) (items : list value) (b : value) :
  In b items -> (exists e, p b = Throw e) -> exists e, filterM p items = Throw e.
Proof.
  induction items as [| x items IH]; intros Hin [e He]; [contradiction |].
  cbn. destruct Hin as [-> | Hin].
  - rewrite He. eauto.
  - destruct (p x) as [keep | e']; [| eauto].
    destruct (IH Hin (ex_intro _ e He)) as [e'' ->]. eauto.
Qed.

Section Today.
Variable other : string -> option Z.
Variable large : Z -> string.

Lemma Date_parse_isoDate (t : Z) :
  four_digit_year t -> Date_parse other (isoDate t) = Some (t / msPerDay * msPerDay).
Proof. intros H. unfold Date_parse. now rewrite parse_iso_date_isoDate. Qed.

(** On a record whose stored date is a date, the callback compares the
    normalized date with today. *)
Lemma is_today_dated (now : Z) (b : value) :
  four_digit_year now ->
  normalized_date other large b <> None ->
  is_today other large (isoDate now) b = Ok (dated other large (isoDate now) b).
Proof.
  intros Hnow Hb. unfold is_today, dated, normalized_date in *.
  destruct (get b "booking_date") as [bd | e]; [| contradiction].
  destruct (strict_eq_str bd (isoDate now)) eqn:E.
  - apply strict_eq_str_spec in E. subst bd. cbn [new_Date].
    rewrite (Date_parse_isoDate now Hnow), isoDate_midnight.
    now rewrite String.eqb_refl.
  - destruct (new_Date other large bd) as [[t |] | e]; try contradiction.
    destruct (toISOString_Some t) as [iso Hiso]. rewrite Hiso.
    now rewrite (split_T_0_toISOString t iso Hiso).
Qed.

(** On a record whose stored date is a string that is no date, it throws. *)
Lemma is_today_unparseable (now : Z) (b : value) (s : string) :
  four_digit_year now ->
  get b "booking_date" = Ok (VStr s) -> Date_parse other s = None ->
  is_today other large (isoDate now) b = Throw RangeError.
Proof.
  intros Hnow Hb Hs. unfold is_today. rewrite Hb.
  destruct (strict_eq_str (VStr s) (isoDate now)) eqn:E.
  - apply strict_eq_str_spec in E. injection E as ->.
    rewrite (Date_parse_isoDate now Hnow) in Hs. discriminate.
  - cbn [new_Date]. rewrite Hs. reflexivity.
Qed.

Lemma todaySchedule_filter (now : Z) (v : response) (items : list value) :
  four_digit_year now ->
  get (data v) "data" = Ok (VArr items) ->
  (forall b, In b items -> normalized_date other large b <> None) ->
  todaySchedule other large (isoDate now) (Fulfilled v)
  = Ok (List.filter (dated other large (isoDate now)) items).
Proof.
  intros Hnow Hd Hall. unfold todaySchedule. rewrite Hd.
  apply filterM_ok. intros b Hb. apply is_today_dated; auto.
Qed.

Lemma dated_offset (now k : Z) (b : value) :
  four_digit_year now -> four_digit_year (now + k * msPerDay) ->
  get b "booking_date" = Ok (VStr (isoDate (now + k * msPerDay))) ->
  normalized_date other large b <> None /\ dated other large (isoDate now) b = (k =? 0).
Proof.
  intros Hnow Hk Hb. unfold dated, normalized_date. rewrite Hb. cbn [new_Date].
  rewrite (Date_parse_isoDate _ Hk), isoDate_midnight. split; [discriminate |].
  destruct (Z.eqb_spec k 0) as [-> | Hne].
  - rewrite Z.mul_0_l, Z.add_0_r. apply String.eqb_refl.
  - apply String.eqb_neq. intros E. apply isoDate_inj in E; try assumption.
    unfold msPerDay in E. rewrite Z.div_add in E by lia. lia.
Qed.
End Today.

Ltac explore H := repeat (break_hyp H; cbn in H).

Ltac same_today :=
  repeat match goal with
         | Hiso : toISOString (Some ?t) = Ok ?iso |- _ =>
             apply split_T_0_toISOString in Hiso; rewrite Hiso in *; clear Hiso
         end.

Lemma truthy_get_throws (v : value) (k : string) (e : thrown) :
  truthy v = true -> get v k = Throw e -> False.
Proof.
  intros Ht Hg. destruct (get_not_nullish v k (truthy_not_nullish v Ht)) as [x Hx].
  congruence.
Qed.

Ltac impossible :=
  match goal with
  | H : toISOString (Some _) = Throw _ |- _ => unfold toISOString in H; discriminate H
  | Ht : truthy ?v = true, Hg : get ?v _ = Throw _ |- _ =>
      exfalso; exact (truthy_get_throws _ _ _ Ht Hg)
  end.

(** C10: when the trainer's bookings come back and one record's
    [booking_date] is a string that is no date, the filter throws and the
    whole request is answered DASHBOARD_ERROR at 500, after all four calls
    went out; nothing of the other slots is returned. *)
Theorem unparseable_date_fails_dashboard (env : string -> option string)
    (other : string -> option Z) (large : Z -> string) (req : request) (w : world)
    (v : response) (items : list value) (b : value) (s : string) :
  four_digit_year (clock w O) ->
  fst (run (trainerDashboard env other large req) w)
    <> Ok (forbidden "Cannot access other trainer dashboards") ->
  backend w (trainer_bookings_call env req) = Resolve v ->
  get (data v) "data" = Ok (VArr items) ->
  In b items -> get b "booking_date" = Ok (VStr s) -> Date_parse other s = None ->
  run (trainerDashboard env other large req) w
  = (Ok dashboard_error, mkState (trainer_calls env req) 1 [trainer_error_log]).
Proof.
  intros Hnow Hnot Hv Hd Hin Hb Hs.
  assert (Hthrow : exists e,
            todaySchedule other large (isoDate (clock w O)) (Fulfilled v) = Throw e).
  { unfold todaySchedule. rewrite Hd. apply (filterM_throws _ items b Hin).
    exists RangeError. now apply (is_today_unparseable other large _ b s). }
  destruct Hthrow as [e He].
  remember (run (trainerDashboard env other large req) w) as R eqn:HR.
  unfold trainer_bookings_call in Hv. unfold trainer_calls.
  run_handler_in HR trainerDashboard.
  set (svc := services env) in *. clearbody svc.
  cbn in Hv.
  explore HR; subst R; cbn in Hnot; try impossible; same_today;
    try (exfalso; apply Hnot; reflexivity); try congruence; try reflexivity.
Qed.

Lemma unparseable_date_fails_dashboard_witness :
  run (trainerDashboard no_env no_other_dates large_stub anonymous)
      (schedule_up [booked "b1" "2026-11-01"; booked "b2" "next tuesday"])
  = (Ok dashboard_error, mkState (trainer_calls no_env anonymous) 1 [trainer_error_log]).
Proof.
  apply (unparseable_date_fails_dashboard no_env no_other_dates large_stub anonymous
           (schedule_up [booked "b1" "2026-11-01"; booked "b2" "next tuesday"])
           (mkResponse 200 (VObj [("data", VArr [booked "b1" "2026-11-01";
                                                 booked "b2" "next tuesday"])]))
           [booked "b1" "2026-11-01"; booked "b2" "next tuesday"]
           (booked "b2" "next tuesday") "next tuesday").
  - change (four_digit_year an_evening). unfold four_digit_year, an_evening. lia.
  - vm_compute. discriminate.
  - reflexivity.
  - reflexivity.
  - right. left. reflexivity.
  - reflexivity.
  - reflexivity.
Defined.

(** *** What the trainer dashboard answers *)

Lemma fulfilled_or_ok (slot : settled) (extract : response -> outcome value)
    (fallback : value) (w : world) (s : state) :
  (forall v, slot = Fulfilled v -> exists x, extract v = Ok x) ->
  fulfilled_or slot extract fallback w s = (Ok (slot_field extract fallback slot), s).
Proof.
  intros Hex. destruct slot as [v | e]; cbn; [| reflexivity].
  unfold lift. destruct (Hex v eq_refl) as [x ->]. reflexivity.
Qed.

Lemma readable_data_data (slot : settled) :
  readable slot -> forall v, slot = Fulfilled v -> exists x, data_data v = Ok x.
Proof. intros H v ->. now apply data_data_readable. Qed.

Lemma listable_data_data (slot : settled) :
  listable slot -> forall v, slot = Fulfilled v -> exists x, data_data v = Ok x.
Proof. intros H v ->. destruct H as (d & Hd & _). unfold data_data. eauto. Qed.

Lemma listable_length (slot : settled) :
  listable slot -> forall v, slot = Fulfilled v -> exists x, data_data_length v = Ok x.
Proof.
  intros H v ->. destruct H as (d & Hd & Hn). unfold data_data_length. rewrite Hd.
  now apply get_not_nullish.
Qed.

(** The result of the trainer dashboard when nothing throws. *)
Lemma trainer_result (env : string -> option string) (other : string -> option Z)
    (large : Z -> string) (req : request) (w : world) (s1 s2 s3 s4 : settled)
    (schedule : list value) :
  fst (run (trainerDashboard env other large req) w)
    <> Ok (forbidden "Cannot access other trainer dashboards") ->
  List.map (slot_of w) (trainer_calls env req) = [s1; s2; s3; s4] ->
  readable s1 -> listable s2 ->
  todaySchedule other large (isoDate (clock w O)) s3 = Ok schedule ->
  exists ts, toISOString (Some (clock w 1)) = Ok ts /\
    run (trainerDashboard env other large req) w
    = (Ok (mkResponse 200
             (success (VObj [("profile", slot_field data_data VNull s1);
                             ("active_clients", slot_field data_data_length (VNum 0) s2);
                             ("today_schedule", VArr schedule);
                             ("recent_programs", slot_field data_data (VArr []) s2)]) ts)),
       mkState (trainer_calls env req) 2 []).
Proof.
  intros Hnot Hslots R1 L2 Hsched.
  destruct (toISOString_Some (clock w 1)) as [ts Hts]. exists ts. split; [exact Hts |].
  destruct (toISOString_Some (clock w O)) as [iso Hiso].
  pose proof (split_T_0_toISOString _ _ Hiso) as Htoday.
  revert Hnot Hslots. unfold trainer_calls. cbv zeta. cbn [List.map].
  run_partially trainerDashboard.
  set (svc := services env). clearbody svc.
  intros Hnot Hslots. injection Hslots as E1 E2 E3 E4. revert Hnot.
  destruct (user req) as [| | [|] | n | u | l | fs];
    cbn -[allSettled4 fulfilled_or toISOString todaySchedule].
  all: try destruct (negb (n =? 0)); try destruct (negb (String.eqb u ""));
    try destruct (strict_eq_str (lookup "role" fs) "trainer");
    try destruct (strict_eq_str (lookup "id" fs) (params_id req));
    cbn -[allSettled4 fulfilled_or toISOString todaySchedule].
  all: try (intros Hnot; exfalso; apply Hnot; reflexivity).
  all: intros _; rewrite Hiso; rewrite allSettled4_axios; rewrite E1, E2, E3, ?E4;
    rewrite Htoday, Hsched;
    rewrite (fulfilled_or_ok s1 data_data _ _ _ (readable_data_data s1 R1));
    rewrite (fulfilled_or_ok s2 data_data_length _ _ _ (listable_length s2 L2));
    rewrite (fulfilled_or_ok s2 data_data _ _ _ (listable_data_data s2 L2));
    cbn [calls ticks logs app]; rewrite Hts; reflexivity.
Qed.

(** The same, for a list of bookings whose stored dates are all dates. *)
Lemma trainer_schedule (env : string -> option string) (other : string -> option Z)
    (large : Z -> string) (req : request) (w : world) (v : response) (items : list value) :
  four_digit_year (clock w O) ->
  fst (run (trainerDashboard env other large req) w)
    <> Ok (forbidden "Cannot access other trainer dashboards") ->
  readable (slot_of w (trainer_profile_call env req)) ->
  listable (slot_of w (trainer_programs_call env req)) ->
  backend w (trainer_bookings_call env req) = Resolve v ->
  get (data v) "data" = Ok (VArr items) ->
  (forall b, In b items -> normalized_date other large b <> None) ->
  exists res st,
    run (trainerDashboard env other large req) w = (Ok res, st) /\
    status res = 200 /\
    today_schedule_of res
    = Ok (VArr (List.filter (dated other large (isoDate (clock w O))) items)).
Proof.
  intros Hnow Hnot R1 L2 Hv Hd Hall.
  destruct (trainer_result env other large req w
              (slot_of w (trainer_profile_call env req))
              (slot_of w (trainer_programs_call env req))
              (Fulfilled v)
              (slot_of w (mkCall GET (svc_user (services env) ++ "/api/users?role=client&limit=50")
                            (authorization req) None))
              (List.filter (dated other large (isoDate (clock w O))) items)
              Hnot) as (ts & _ & Hrun); try assumption.
  - unfold trainer_calls. cbv zeta. cbn [List.map]. repeat f_equal.
    unfold slot_of. fold (trainer_bookings_call env req). now rewrite Hv.
  - now apply todaySchedule_filter.
  - rewrite Hrun. do 2 eexists. split; [reflexivity |]. split; reflexivity.
Qed.

(** C7: when the trainer dashboard is not refused, the profile and the
    programs can be read and the bookings come back as a list whose stored
    dates are all dates, the answer is a result at 200 whose [today_schedule]
    is that list filtered, in its order, down to the records whose
    normalized date is today's; of three bookings dated yesterday, today and
    tomorrow it holds exactly today's. *)
Theorem today_schedule_keeps_today (env : string -> option string)
    (other : string -> option Z) (large : Z -> string) (req : request) (w : world)
    (v : response) :
  let now := clock w O in
  let r := run (trainerDashboard env other large req) w in
  four_digit_year now ->
  fst r <> Ok (forbidden "Cannot access other trainer dashboards") ->
  readable (slot_of w (trainer_profile_call env req)) ->
  listable (slot_of w (trainer_programs_call env req)) ->
  backend w (trainer_bookings_call env req) = Resolve v ->
  (forall items,
     get (data v) "data" = Ok (VArr items) ->
     (forall b, In b items -> normalized_date other large b <> None) ->
     exists res st,
       r = (Ok res, st) /\ status res = 200 /\
       today_schedule_of res
       = Ok (VArr (List.filter (dated other large (isoDate now)) items))) /\
  (forall b_yesterday b_today b_tomorrow,
     get (data v) "data" = Ok (VArr [b_yesterday; b_today; b_tomorrow]) ->
     four_digit_year (now - msPerDay) -> four_digit_year (now + msPerDay) ->
     get b_yesterday "booking_date" = Ok (VStr (isoDate (now - msPerDay))) ->
     get b_today "booking_date" = Ok (VStr (isoDate now)) ->
     get b_tomorrow "booking_date" = Ok (VStr (isoDate (now + msPerDay))) ->
     exists res st,
       r = (Ok res, st) /\ status res = 200 /\
       today_schedule_of res = Ok (VArr [b_today])).
Proof.
  intros now r Hnow Hnot R1 L2 Hv. subst r. split.
  - intros items Hd Hall. now apply (trainer_schedule env other large req w v items).
  - intros b_yesterday b_today b_tomorrow Hd Hy Ht By Bt Bm.
    replace (now - msPerDay) with (now + (-1) * msPerDay) in * by lia.
    replace (now + msPerDay) with (now + 1 * msPerDay) in Ht, Bm by lia.
    assert (B0 : get b_today "booking_date" = Ok (VStr (isoDate (now + 0 * msPerDay))))
      by (now rewrite Z.mul_0_l, Z.add_0_r).
    assert (H0 : four_digit_year (now + 0 * msPerDay))
      by (now rewrite Z.mul_0_l, Z.add_0_r).
    destruct (dated_offset other large now (-1) b_yesterday Hnow Hy By) as [Ny Dy].
    destruct (dated_offset other large now 0 b_today Hnow H0 B0) as [Nt Dt].
    destruct (dated_offset other large now 1 b_tomorrow Hnow Ht Bm) as [Nm Dm].
    destruct (trainer_schedule env other large req w v _ Hnow Hnot R1 L2 Hv Hd)
      as (res & st & Hrun & H200 & Hsched).
    + intros b [<- | [<- | [<- | []]]]; assumption.
    + exists res, st. split; [exact Hrun |]. split; [exact H200 |].
      rewrite Hsched. cbn [List.filter]. fold now. rewrite Dy, Dt, Dm. reflexivity.
Qed.

Lemma today_schedule_keeps_today_witness :
  exists res st,
    run (trainerDashboard no_env no_other_dates large_stub anonymous) (all_up three_days)
    = (Ok res, st) /\
    status res = 200 /\
    today_schedule_of res = Ok (VArr [booked "b2" "2026-11-01"]).
Proof.
  refine (proj2 (today_schedule_keeps_today no_env no_other_dates large_stub anonymous
                   (all_up three_days) (mkResponse 200 (VObj [("data", VArr three_days)]))
                   _ _ _ _ eq_refl)
            (booked "b1" "2026-10-31") (booked "b2" "2026-11-01") (booked "b3" "2026-11-02")
            eq_refl _ _ eq_refl eq_refl eq_refl).
  - unfold four_digit_year. vm_compute. split; [discriminate | reflexivity].
  - vm_compute. discriminate.
  - reflexivity.
  - exists (VArr [VObj [("id", VStr "p1")]; VObj [("id", VStr "p2")]]). split; reflexivity.
  - unfold four_digit_year. vm_compute. split; [discriminate | reflexivity].
  - unfold four_digit_year. vm_compute. split; [discriminate | reflexivity].
Defined.

(** * Further properties *)

(** ** More on the token middleware *)

Lemma startsWith_split (p s : string) :
  startsWith p s = true -> s = p ++ substring_from (String.length p) s.
Proof.
  revert s. induction p as [| a p IH]; intros s H; [reflexivity |].
  destruct s as [| b s]; [discriminate |].
  cbn in H. apply andb_true_iff in H. destruct H as [Hab Hs].
  apply Ascii.eqb_eq in Hab. subst b. cbn. f_equal. now apply IH.
Qed.

Lemma startsWith_app (p s : string) : startsWith p (p ++ s) = true.
Proof.
  induction p as [| a p IH]; [reflexivity |].
  cbn. now rewrite Ascii.eqb_refl.
Qed.

Lemma substring_from_app (p s : string) : substring_from (String.length p) (p ++ s) = s.
Proof. induction p as [| a p IH]; [reflexivity | exact IH]. Qed.

(** X2: the middleware always hands the request on, changes nothing of it but
    [user], and calls no backend; the identity it attaches for a Bearer token
    that verifies is the decoded payload, and it attaches nothing that
    [jwt.verify] did not return for the token of the header. *)
Theorem verifyToken_attaches_verified (env : string -> option string)
    (jwt_verify : string -> string -> string -> string -> outcome value)
    (req : request) (w : world) (s : state) :
  exists req' lg,
    verifyToken env jwt_verify req w s
    = (Ok (Next req'), mkState (calls s) (ticks s) (logs s ++ lg)) /\
    req' = set_user req (user req') /\
    (forall token d,
       authorization req = Some ("Bearer " ++ token) ->
       jwt_verify token (JWT_SECRET env) "fitsync-user-service" "fitsync-api" = Ok d ->
       user req' = d) /\
    (user req' <> user req ->
     exists token,
       authorization req = Some ("Bearer " ++ token) /\
       jwt_verify token (JWT_SECRET env) "fitsync-user-service" "fitsync-api"
       = Ok (user req')).
Proof.
  destruct s as [cs tk lg0]. destruct req as [auth pid bd us pa cid].
  unfold verifyToken. cbn [authorization Gateway.user].
  destruct auth as [h |].
  2:{ exists (mkRequest None pid bd us pa cid), []. unfold ret. cbn.
      rewrite app_nil_r. repeat split; try discriminate. intros H. now contradiction H. }
  destruct (startsWith "Bearer " h) eqn:Hb.
  2:{ rewrite orb_true_r.
      exists (mkRequest (Some h) pid bd us pa cid), []. unfold ret. cbn.
      rewrite app_nil_r. repeat split.
      - intros token d [= ->]. pose proof (startsWith_app "Bearer " token) as X.
        cbn in Hb, X. congruence.
      - intros H. now contradiction H. }
  assert (Ht : truthy (VStr h) = true) by (destruct h; [discriminate | reflexivity]).
  rewrite Ht. cbn [negb orb].
  pose proof (startsWith_split _ _ Hb) as Hh. cbn [String.length] in Hh.
  destruct (jwt_verify (substring_from 7 h) (JWT_SECRET env) "fitsync-user-service"
              "fitsync-api") as [d | e] eqn:Hv.
  - assert (Hres : exists lg,
      (match get d "id", get d "role" with
       | Ok _, Ok _ =>
           bind (log "debug" "Token verified")
             (fun _ => ret (Next (set_user (mkRequest (Some h) pid bd us pa cid) d)))
       | _, _ =>
           bind (log "warn" "Token verification failed")
             (fun _ => ret (Next (set_user (mkRequest (Some h) pid bd us pa cid) d)))
       end) w (mkState cs tk lg0)
      = (Ok (Next (set_user (mkRequest (Some h) pid bd us pa cid) d)),
         mkState cs tk (lg0 ++ lg))).
    { destruct (get d "id"), (get d "role"); eexists; reflexivity. }
    destruct Hres as [lg Hres].
    exists (set_user (mkRequest (Some h) pid bd us pa cid) d), lg.
    split; [exact Hres |]. cbn. repeat split.
    + intros token d' [= E] Hd'. subst h.
      cbn [substring_from append] in Hv. congruence.
    + intros _. exists (substring_from 7 h). split; [exact (f_equal Some Hh) | exact Hv].
  - exists (mkRequest (Some h) pid bd us pa cid). eexists.
    split; [unfold bind, log, ret; cbn; reflexivity |]. cbn. repeat split.
    + intros token d [= E] Hd. subst h.
      cbn [substring_from append] in Hv. congruence.
    + intros H. now contradiction H.
Qed.

Lemma verifyToken_attaches_verified_witness :
  exists req' lg,
    verifyToken no_env one_token_jwt
      (request_of (Some "Bearer good") "c1" (VObj []) VUndefined) all_down init
    = (Ok (Next req'), mkState [] O ([] ++ lg)) /\
    user req' = VObj [("id", VStr "u1"); ("role", VStr "admin")].
Proof.
  destruct (verifyToken_attaches_verified no_env one_token_jwt
              (request_of (Some "Bearer good") "c1" (VObj []) VUndefined) all_down init)
    as (req' & lg & Hrun & _ & Hset & _).
  exists req', lg. split; [exact Hrun |].
  apply (Hset "good"); reflexivity.
Defined.

(** ** Backend addresses *)

Lemma env_or_nonempty (env : string -> option string) (name fallback : string) :
  fallback <> "" -> env_or env name fallback <> "".
Proof.
  intros H. unfold env_or. destruct (env name) as [s |]; [| exact H].
  destruct (String.eqb_spec s ""); assumption.
Qed.

(** X17: whatever the environment, no backend address is empty: an empty
    variable counts as unset. *)
Theorem services_never_empty (env : string -> option string) :
  svc_user (services env) <> "" /\ svc_training (services env) <> "" /\
  svc_schedule (services env) <> "" /\ svc_progress (services env) <> "" /\
  svc_notification (services env) <> "" /\
  (forall name fallback, env name = Some "" -> env_or env name fallback = fallback).
Proof.
  unfold services. cbn.
  repeat split; try (apply env_or_nonempty; discriminate).
  intros name fallback H. unfold env_or. now rewrite H.
Qed.

(** ** More on the overrides *)

(** Where the digits of an override end: at the end of the string, or at a
    character that is no digit and, after a lone [0], no [x] either. *)
Lemma digits_prefix_stops (ds rest : string) (a : Z) :
  all_digits ds = true ->
  match rest with String c _ => is_digit c = false | EmptyString => True end ->
  digits_prefix 10 (ds ++ rest) (Some a) = Some (decimal_value_from a ds).
Proof.
  revert a. induction ds as [| d ds IH]; intros a Hd Hc.
  - destruct rest as [| c tail]; [reflexivity |]. cbn. now rewrite (not_digit_radix c Hc).
  - cbn in Hd. apply andb_true_iff in Hd. destruct Hd as [Hd Hds].
    cbn [append digits_prefix decimal_value_from]. rewrite (is_digit_radix d Hd).
    now apply IH.
Qed.

Lemma append_nothing (s : string) : s ++ "" = s.
Proof. induction s as [| c s IH]; [reflexivity | cbn; now rewrite IH]. Qed.

(** No [0x] in front of digits followed by [rest]. *)
Lemma decimal_radix (d : ascii) (ds rest : string) :
  is_digit d = true -> all_digits ds = true ->
  match rest with
  | String c _ => String d ds = "0" -> is_x c = false
  | EmptyString => True
  end ->
  match ds ++ rest with
  | String x tail =>
      if Ascii.eqb d "0" && is_x x then (16, tail) else (10, String d (ds ++ rest))
  | EmptyString => (10, String d (ds ++ rest))
  end = (10, String d (ds ++ rest)).
Proof.
  intros Hd Hds Hx. destruct ds as [| x ds']; cbn [append].
  - destruct rest as [| c tail]; [reflexivity |].
    destruct (Ascii.eqb_spec d "0") as [-> | N]; [| reflexivity].
    now rewrite (Hx eq_refl).
  - cbn in Hds. apply andb_true_iff in Hds. destruct Hds as [Hxd _].
    destruct (digit_plain x Hxd) as (_ & _ & _ & Hxx). rewrite Hxx.
    now rewrite andb_false_r.
Qed.

Lemma parseInt_leading_digits (ds rest : string) :
  ds <> "" -> all_digits ds = true ->
  match rest with
  | String c _ => is_digit c = false /\ (ds = "0" -> is_x c = false)
  | EmptyString => True
  end ->
  parseInt (ds ++ rest) = Some (to_Number (decimal_value ds)) /\
  parseInt (String "-" (ds ++ rest)) = Some (to_Number (- decimal_value ds)).
Proof.
  intros Hne Hall Hrest. destruct ds as [| d ds]; [contradiction |].
  cbn in Hall. apply andb_true_iff in Hall. destruct Hall as [Hd Hds].
  destruct (digit_plain d Hd) as (Hsp & Hm & Hp & _).
  assert (Hstop : match rest with String c _ => is_digit c = false | EmptyString => True end)
    by (destruct rest; [exact I | apply Hrest]).
  assert (Hnox : match rest with
                 | String c _ => String d ds = "0" -> is_x c = false
                 | EmptyString => True
                 end)
    by (destruct rest; [exact I | apply Hrest]).
  pose proof (decimal_radix d ds rest Hd Hds Hnox) as Hr.
  assert (Hval : digits_prefix 10 (String d (ds ++ rest)) None
                 = Some (decimal_value (String d ds))).
  { cbn [digits_prefix]. rewrite (is_digit_radix d Hd).
    rewrite digits_prefix_stops by assumption.
    unfold decimal_value. cbn [decimal_value_from]. now rewrite Z.mul_0_l, Z.add_0_l. }
  split.
  - unfold parseInt. cbn [append trim_start]. rewrite Hsp. cbv zeta. rewrite Hm, Hp.
    rewrite Hr, Hval. now rewrite Z.mul_1_l.
  - unfold parseInt. cbn [append trim_start].
    replace (is_space "-") with false by reflexivity. cbv zeta.
    replace (Ascii.eqb "-" "-") with true by reflexivity.
    rewrite Hr, Hval.
    replace (-1 * decimal_value (String d ds)) with (- decimal_value (String d ds)) by lia.
    reflexivity.
Qed.

(** X18: an override that starts with decimal digits and goes on with
    other text (anything but a digit, and after a lone [0] anything but [x])
    resolves to the number the digits write, as a double, and a minus sign in
    front is taken: [1.5] gives 1, [12abc] and [12x3] give 12, [-5] gives
    -5; when the digits write zero the default stays. *)
Theorem override_reads_leading_number (env : string -> option string) (name : string)
    (fallback : Z) (ds : string) (c : ascii) (tail : string) :
  numeral ds -> is_digit c = false -> (ds = "0" -> is_x c = false) ->
  (env name = Some (ds ++ String c tail) ->
   parseInt_env_or env name fallback
   = if decimal_value ds =? 0 then Finite fallback else to_Number (decimal_value ds)) /\
  (env name = Some (String "-" ds) \/ env name = Some (String "-" (ds ++ String c tail)) ->
   parseInt_env_or env name fallback
   = if decimal_value ds =? 0 then Finite fallback else to_Number (- decimal_value ds)) /\
  (held_exactly (decimal_value ds) ->
   to_Number (decimal_value ds) = Finite (decimal_value ds) /\
   to_Number (- decimal_value ds) = Finite (- decimal_value ds)).
Proof.
  intros (Hne & Hd) Hc Hx. unfold parseInt_env_or.
  destruct (parseInt_leading_digits ds (String c tail) Hne Hd (conj Hc Hx)) as [P1 P2].
  destruct (parseInt_leading_digits ds "" Hne Hd I) as [_ P3].
  rewrite append_nothing in P3.
  assert (Hneg : nonzero (to_Number (- decimal_value ds)) = negb (decimal_value ds =? 0)).
  { rewrite to_Number_nonzero. f_equal.
    destruct (Z.eqb_spec (- decimal_value ds) 0), (Z.eqb_spec (decimal_value ds) 0);
      try reflexivity; lia. }
  split; [| split].
  - intros ->. rewrite P1, to_Number_nonzero. now destruct (decimal_value ds =? 0).
  - intros [-> | ->]; rewrite ?P2, ?P3, Hneg; now destruct (decimal_value ds =? 0).
  - intros He. split; apply to_Number_exact; unfold held_exactly in *; lia.
Qed.

Lemma override_reads_leading_number_witness :
  windowMs (limiter (env_with "RATE_LIMIT_WINDOW_MS" "1.5")) = Finite 1 /\
  windowMs (limiter (env_with "RATE_LIMIT_WINDOW_MS" "12x3")) = Finite 12 /\
  max (limiter (env_with "RATE_LIMIT_MAX_REQUESTS" "-5")) = Finite (-5).
Proof.
  split; [| split].
  - refine (proj1 (override_reads_leading_number
                     (env_with "RATE_LIMIT_WINDOW_MS" "1.5") "RATE_LIMIT_WINDOW_MS" 60000
                     "1" "."%char "5" _ eq_refl _) eq_refl).
    + split; [discriminate | reflexivity].
    + discriminate.
  - refine (proj1 (override_reads_leading_number
                     (env_with "RATE_LIMIT_WINDOW_MS" "12x3") "RATE_LIMIT_WINDOW_MS" 60000
                     "12" "x"%char "3" _ eq_refl _) eq_refl).
    + split; [discriminate | reflexivity].
    + discriminate.
  - refine (proj1 (proj2 (override_reads_leading_number
                     (env_with "RATE_LIMIT_MAX_REQUESTS" "-5") "RATE_LIMIT_MAX_REQUESTS" 1000
                     "5" "."%char "" _ eq_refl _)) (or_introl eq_refl)).
    + split; [discriminate | reflexivity].
    + discriminate.
Defined.

(** ** What every request comes to *)

Arguments failure : simpl never.

Ltac name_calls H :=
  repeat match type of H with
         | context [mkCall ?m ?u ?a ?p] =>
             let c := fresh "c" in set (c := mkCall m u a p) in *
         end.

Ltac unfold_handler_in H h :=
  unfold run, h, now_iso, json, fulfilled_or, allSettled4, settle, catch_null,
    axios_get, axios_post, axios, Date_now, log, try_catch, bind, ret, lift, init in H;
  cbv zeta in H; name_calls H; cbn in H.

Ltac outcome_leaf :=
  eexists; split; [reflexivity |];
  first [ left; split; reflexivity
        | right; split; [reflexivity | first [left; reflexivity | right; reflexivity]] ].

Lemma client_outcome (env : string -> option string) (req : request) (w : world) :
  dashboard_outcome "Cannot access other client dashboards" (client_calls env req)
    (run (clientDashboard env req) w).
Proof.
  unfold dashboard_outcome, client_calls. cbv zeta.
  remember (run (clientDashboard env req) w) as R eqn:HR.
  unfold_handler_in HR clientDashboard.
  explore HR; subst R; try impossible; outcome_leaf.
Qed.

Lemma trainer_outcome (env : string -> option string) (other : string -> option Z)
    (large : Z -> string) (req : request) (w : world) :
  dashboard_outcome "Cannot access other trainer dashboards" (trainer_calls env req)
    (run (trainerDashboard env other large req) w).
Proof.
  unfold dashboard_outcome, trainer_calls. cbv zeta.
  remember (run (trainerDashboard env other large req) w) as R eqn:HR.
  unfold_handler_in HR trainerDashboard.
  explore HR; subst R; try impossible; outcome_leaf.
Qed.

Lemma admin_outcome (env : string -> option string) (req : request) (w : world) :
  dashboard_outcome "Admin access required" (admin_calls env req)
    (run (adminDashboard env req) w).
Proof.
  unfold dashboard_outcome, admin_calls. cbv zeta.
  remember (run (adminDashboard env req) w) as R eqn:HR.
  unfold_handler_in HR adminDashboard.
  explore HR; subst R; try impossible; outcome_leaf.
Qed.

(** X5: a dashboard handler never lets an exception escape: it answers the
    refusal, before any call, or, after exactly the four calls of its
    fan-out, the result at 200 or DASHBOARD_ERROR. *)
Theorem dashboards_always_answer (env : string -> option string)
    (other : string -> option Z) (large : Z -> string) (req : request) (w : world) :
  dashboard_outcome "Cannot access other client dashboards" (client_calls env req)
    (run (clientDashboard env req) w) /\
  dashboard_outcome "Cannot access other trainer dashboards" (trainer_calls env req)
    (run (trainerDashboard env other large req) w) /\
  dashboard_outcome "Admin access required" (admin_calls env req)
    (run (adminDashboard env req) w).
Proof.
  split; [apply client_outcome | split; [apply trainer_outcome | apply admin_outcome]].
Qed.

(** The calls of a booking request, and what stands behind a create call. *)
Lemma booking_summary (env : string -> option string) (large : Z -> string)
    (req : request) (w : world) :
  exists res, fst (run (bookingsValidated env large req) w) = Ok res /\
    (calls (snd (run (bookingsValidated env large req) w)) = [] \/
     exists trainer,
       ToString large (field req "trainer_id") = Ok trainer /\
       (calls (snd (run (bookingsValidated env large req) w)) = [trainer_call env req trainer] \/
        (calls (snd (run (bookingsValidated env large req) w))
           = [trainer_call env req trainer; create_call env req] /\
         exists t d, backend w (trainer_call env req trainer) = Resolve t /\
                     get (data t) "data" = Ok d /\ get d "role" = Ok (VStr "trainer")))).
Proof.
  destruct (nullish (body req)) eqn:Hb.
  - exists booking_failed. run_handler bookingsValidated.
    destruct (body req); try discriminate; cbn; auto.
  - destruct (ToString large (field req "trainer_id")) as [trainer | e] eqn:Htext.
    + remember (run (bookingsValidated env large req) w) as R eqn:HR.
      unfold trainer_call, create_call.
      unfold run, bookingsValidated, now_iso, json, catch_null, axios_get, axios_post, axios,
        log, try_catch, bind, ret, lift, init in HR.
      rewrite !(get_field req _ Hb) in HR. rewrite Htext in HR.
      cbv zeta in HR. name_calls HR. cbn in HR.
      explore HR; subst R; cbn [fst snd calls]; eexists; (split; [reflexivity |]);
        right; exists trainer; (split; [reflexivity |]); auto.
      all: right; split; [reflexivity |].
      all: match goal with
           | Hs : negb (strict_eq_str _ "trainer") = false |- _ =>
               apply negb_false_iff, strict_eq_str_spec in Hs; subst
           end; eauto.
    + pose proof (ToString_throws _ _ _ Htext) as ->.
      exists booking_failed. run_handler bookingsValidated.
      rewrite !(get_field req _ Hb). cbn. rewrite Htext. cbn. auto.
Qed.

(** X4: every backend call of the four composite handlers carries the
    caller's Authorization header as it came, absent when it was absent. *)
Theorem credential_forwarded (env : string -> option string) (other : string -> option Z)
    (large : Z -> string) (req : request) (w : world) :
  Forall (forwards_credential req) (calls (snd (run (clientDashboard env req) w))) /\
  Forall (forwards_credential req)
    (calls (snd (run (trainerDashboard env other large req) w))) /\
  Forall (forwards_credential req) (calls (snd (run (adminDashboard env req) w))) /\
  Forall (forwards_credential req) (calls (snd (run (bookingsValidated env large req) w))).
Proof.
  repeat split.
  - destruct (client_outcome env req w) as (res & _ & [[_ ->] | [-> _]]);
      repeat constructor.
  - destruct (trainer_outcome env other large req w) as (res & _ & [[_ ->] | [-> _]]);
      repeat constructor.
  - destruct (admin_outcome env req w) as (res & _ & [[_ ->] | [-> _]]);
      repeat constructor.
  - destruct (booking_summary env large req w)
      as (res & _ & [-> | (trainer & _ & [-> | [-> _]])]);
      repeat constructor.
Qed.

(** X6: a create call goes out only after the user backend answered the
    lookup, made under the text of the inbound [trainer_id], with a user
    whose role is [trainer]; it is then the second and last call. *)
Theorem create_only_after_verification (env : string -> option string)
    (large : Z -> string) (req : request) (w : world) (c : call) :
  In c (calls (snd (run (bookingsValidated env large req) w))) -> method c = POST ->
  c = create_call env req /\
  exists trainer,
    ToString large (field req "trainer_id") = Ok trainer /\
    calls (snd (run (bookingsValidated env large req) w))
    = [trainer_call env req trainer; create_call env req] /\
    exists t d, backend w (trainer_call env req trainer) = Resolve t /\
                get (data t) "data" = Ok d /\ get d "role" = Ok (VStr "trainer").
Proof.
  intros Hin Hpost.
  destruct (booking_summary env large req w)
    as (res & _ & [E | (trainer & Htext & [E | [E Hv]])]); rewrite E in Hin.
  - contradiction.
  - destruct Hin as [<- | []]. discriminate.
  - destruct Hin as [<- | [<- | []]]; [discriminate |]. eauto.
Qed.

Lemma create_only_after_verification_witness :
  create_call no_env a_booking = create_call no_env a_booking /\
  exists trainer,
    ToString large_stub (field a_booking "trainer_id") = Ok trainer /\
    calls (snd (run (bookingsValidated no_env large_stub a_booking)
                  (trainer_known (Resolve (mkResponse 201 (VObj []))))))
    = [trainer_call no_env a_booking trainer; create_call no_env a_booking] /\
    exists t d,
      backend (trainer_known (Resolve (mkResponse 201 (VObj []))))
        (trainer_call no_env a_booking trainer) = Resolve t /\
      get (data t) "data" = Ok d /\ get d "role" = Ok (VStr "trainer").
Proof.
  apply (create_only_after_verification no_env large_stub a_booking
           (trainer_known (Resolve (mkResponse 201 (VObj [])))) (create_call no_env a_booking)).
  - right. left. reflexivity.
  - reflexivity.
Defined.

Ltac proceeds_leaf :=
  split; [reflexivity | eexists; split; [reflexivity | auto]].

(** ** GET /api/dashboard/trainer/:id *)

(** X1: a trainer is refused any trainer dashboard but its own, before any
    backend is called; on its own id, for any other role (clients included)
    and for a request with no identity, the fan-out goes out. *)
Theorem trainerDashboard_access (env : string -> option string) (other : string -> option Z)
    (large : Z -> string) (req : request) (w : world) :
  let r := run (trainerDashboard env other large req) w in
  (forall uid, get (user req) "role" = Ok (VStr "trainer") -> get (user req) "id" = Ok uid ->
     uid <> VStr (params_id req) ->
     r = (Ok (forbidden "Cannot access other trainer dashboards"), init)) /\
  (get (user req) "role" = Ok (VStr "trainer") ->
   get (user req) "id" = Ok (VStr (params_id req)) ->
   proceeds (trainer_calls env req) r) /\
  (forall role, get (user req) "role" = Ok role -> role <> VStr "trainer" ->
     proceeds (trainer_calls env req) r) /\
  (truthy (user req) = false -> proceeds (trainer_calls env req) r).
Proof.
  cbv zeta. unfold proceeds, trainer_calls. cbv zeta.
  remember (run (trainerDashboard env other large req) w) as R eqn:HR.
  unfold_handler_in HR trainerDashboard.
  split; [| split; [| split]].
  - intros uid Hrole Hid Hne.
    rewrite (role_string_truthy _ _ Hrole), Hrole in HR. cbn in HR. rewrite Hid in HR.
    cbn in HR. rewrite (strict_eq_str_false _ _ Hne) in HR. cbn in HR. now subst R.
  - intros Hrole Hid.
    rewrite (role_string_truthy _ _ Hrole), Hrole in HR. cbn in HR. rewrite Hid in HR.
    cbn in HR. rewrite String.eqb_refl in HR. cbn in HR.
    explore HR; subst R; try impossible; proceeds_leaf.
  - intros role Hrole Hne.
    destruct (truthy (user req)) eqn:Hu; cbn in HR.
    + rewrite Hrole in HR. cbn in HR. rewrite (strict_eq_str_false _ _ Hne) in HR. cbn in HR.
      explore HR; subst R; try impossible; proceeds_leaf.
    + explore HR; subst R; try impossible; proceeds_leaf.
  - intros Hu. rewrite Hu in HR. cbn in HR.
    explore HR; subst R; try impossible; proceeds_leaf.
Qed.

Lemma trainerDashboard_access_witness :
  run (trainerDashboard no_env no_other_dates large_stub
         (request_of None "t2" (VObj []) (identity "t1" "trainer"))) all_down
  = (Ok (forbidden "Cannot access other trainer dashboards"), init).
Proof.
  apply (proj1 (trainerDashboard_access no_env no_other_dates large_stub
                  (request_of None "t2" (VObj []) (identity "t1" "trainer")) all_down)
           (VStr "t1")); [reflexivity | reflexivity | discriminate].
Defined.

(** ** More on POST /api/bookings/validated *)

(** X7: a [trainer_id] that cannot be turned into text, an object with a
    field [toString] of its own, throws before any call and gives
    BOOKING_FAILED.  Once the lookup is answered: a user of another role
    gives INVALID_TRAINER with no create call; an answer whose [data] is
    missing or [null] makes reading the role throw and gives BOOKING_FAILED;
    for a trainer, a successful create call is answered 201 with the
    scheduling backend's body, whatever its own 2xx status. *)
Theorem booking_verdicts (env : string -> option string) (large : Z -> string)
    (req : request) (w : world) :
  nullish (body req) = false ->
  let r := run (bookingsValidated env large req) w in
  (forall fields, field req "trainer_id" = VObj fields -> has_own "toString" fields = true ->
     r = (Ok booking_failed, mkState [] O [booking_error_log])) /\
  (forall e, ToString large (field req "trainer_id") = Throw e ->
     r = (Ok booking_failed, mkState [] O [booking_error_log])) /\
  (forall trainer t,
     ToString large (field req "trainer_id") = Ok trainer ->
     backend w (trainer_call env req trainer) = Resolve t ->
     (forall d role, get (data t) "data" = Ok d -> get d "role" = Ok role ->
        role <> VStr "trainer" ->
        r = (Ok invalid_trainer, mkState [trainer_call env req trainer] O [])) /\
     (forall d, get (data t) "data" = Ok d -> nullish d = true ->
        r = (Ok booking_failed,
             mkState [trainer_call env req trainer] O [booking_error_log])) /\
     (forall d b, get (data t) "data" = Ok d -> get d "role" = Ok (VStr "trainer") ->
        backend w (create_call env req) = Resolve b ->
        r = (Ok (mkResponse 201 (data b)),
             mkState [trainer_call env req trainer; create_call env req] O []))).
Proof.
  intros Hb. cbv zeta.
  assert (Hthrow : forall e, ToString large (field req "trainer_id") = Throw e ->
            run (bookingsValidated env large req) w
            = (Ok booking_failed, mkState [] O [booking_error_log])).
  { intros e He. pose proof (ToString_throws _ _ _ He) as ->.
    run_handler bookingsValidated.
    rewrite !(get_field req _ Hb). cbn. rewrite He. reflexivity. }
  split; [| split].
  - intros fields Hf Hown. apply (Hthrow TypeError).
    rewrite Hf. unfold ToString. now rewrite Hown.
  - exact Hthrow.
  - intros trainer t Htext Ht.
    unfold trainer_call, create_call in *.
    run_handler bookingsValidated.
    rewrite !(get_field req _ Hb). cbn. rewrite Htext. cbn.
    set (svc := services env) in *. clearbody svc.
    cbn in Ht. rewrite Ht. cbn.
    split; [| split].
    + intros d role Hd Hr Hne. rewrite Hd. cbn. rewrite Hr. cbn.
      now rewrite (strict_eq_str_false _ _ Hne).
    + intros d Hd Hn. rewrite Hd. cbn. destruct d; try discriminate; reflexivity.
    + intros d b Hd Hr Hc. rewrite Hd. cbn. rewrite Hr. cbn. cbn in Hc. now rewrite Hc.
Qed.

Lemma booking_verdicts_witness :
  run (bookingsValidated no_env large_stub a_booking)
    (trainer_known (Resolve (mkResponse 200 (VObj []))))
  = (Ok (mkResponse 201 (VObj [])),
     mkState [trainer_call no_env a_booking "t7"; create_call no_env a_booking] O []) /\
  run (bookingsValidated no_env large_stub odd_booking)
    (trainer_known (Resolve (mkResponse 200 (VObj []))))
  = (Ok booking_failed, mkState [] O [booking_error_log]).
Proof.
  split.
  - refine (proj2 (proj2 (proj2 (proj2 (booking_verdicts no_env large_stub a_booking
                                          (trainer_known (Resolve (mkResponse 200 (VObj []))))
                                          eq_refl))
                            "t7" _ eq_refl eq_refl))
              _ (mkResponse 200 (VObj [])) eq_refl eq_refl eq_refl).
  - refine (proj1 (booking_verdicts no_env large_stub odd_booking
                     (trainer_known (Resolve (mkResponse 200 (VObj [])))) eq_refl)
              [("toString", VNum 1)] eq_refl eq_refl).
Defined.

(** ** Assembly of the trainer dashboard *)

(** X8: the trainer dashboard's result: the profile or [null], the number
    and the list of programs or 0 and the empty list, and the filtered
    schedule, read at the first clock reading and stamped at the second. *)
Theorem trainer_assembly (env : string -> option string) (other : string -> option Z)
    (large : Z -> string) (req : request) (w : world) (s1 s2 s3 s4 : settled)
    (schedule : list value) :
  fst (run (trainerDashboard env other large req) w)
    <> Ok (forbidden "Cannot access other trainer dashboards") ->
  List.map (slot_of w) (trainer_calls env req) = [s1; s2; s3; s4] ->
  readable s1 -> listable s2 ->
  todaySchedule other large (isoDate (clock w O)) s3 = Ok schedule ->
  exists ts, toISOString (Some (clock w 1)) = Ok ts /\
    run (trainerDashboard env other large req) w
    = (Ok (mkResponse 200
             (success (VObj [("profile", slot_field data_data VNull s1);
                             ("active_clients", slot_field data_data_length (VNum 0) s2);
                             ("today_schedule", VArr schedule);
                             ("recent_programs", slot_field data_data (VArr []) s2)]) ts)),
       mkState (trainer_calls env req) 2 []).
Proof.
  intros Hnot Hslots R1 L2 Hsched.
  exact (trainer_result env other large req w s1 s2 s3 s4 schedule Hnot Hslots R1 L2 Hsched).
Qed.

Lemma trainer_assembly_witness :
  exists ts, toISOString (Some (an_evening + 1)) = Ok ts /\
    run (trainerDashboard no_env no_other_dates large_stub anonymous) (all_up three_days)
    = (Ok (mkResponse 200
             (success (VObj [("profile", VObj [("name", VStr "John Doe")]);
                             ("active_clients", VNum 2);
                             ("today_schedule", VArr [booked "b2" "2026-11-01"]);
                             ("recent_programs",
                              VArr [VObj [("id", VStr "p1")]; VObj [("id", VStr "p2")]])])
                ts)),
       mkState (trainer_calls no_env anonymous) 2 []).
Proof.
  apply (trainer_assembly no_env no_other_dates large_stub anonymous (all_up three_days)
           (Fulfilled (mkResponse 200 a_profile))
           (Fulfilled (mkResponse 200 two_programs))
           (Fulfilled (mkResponse 200 (VObj [("data", VArr three_days)])))
           (Fulfilled (mkResponse 200 a_profile))
           [booked "b2" "2026-11-01"]).
  - vm_compute. discriminate.
  - reflexivity.
  - reflexivity.
  - exists (VArr [VObj [("id", VStr "p1")]; VObj [("id", VStr "p2")]]). split; reflexivity.
  - vm_compute. reflexivity.
Defined.

(** The fourth call, for the list of clients, is made and never read. *)
(** X9: the trainer dashboard does not depend on what the fourth call, for
    the list of clients, brings: two worlds that agree on the first three
    calls and on the clock give the same run. *)
Theorem trainer_clients_call_unused (env : string -> option string)
    (other : string -> option Z) (large : Z -> string) (req : request) (w w' : world) :
  (forall c, In c (firstn 3 (trainer_calls env req)) -> backend w c = backend w' c) ->
  (forall n, clock w n = clock w' n) ->
  run (trainerDashboard env other large req) w
  = run (trainerDashboard env other large req) w'.
Proof.
  unfold trainer_calls. cbv zeta. cbn [firstn]. intros Hsame Hclock.
  assert (S1 : forall c, In c [mkCall GET (svc_user (services env) ++ "/api/users/" ++ params_id req)
                                 (authorization req) None;
                               mkCall GET (svc_training (services env) ++ "/api/programs?trainer_id="
                                             ++ params_id req ++ "&status=active&limit=10")
                                 (authorization req) None;
                               mkCall GET (svc_schedule (services env) ++ "/api/bookings?trainer_id="
                                             ++ params_id req ++ "&limit=20")
                                 (authorization req) None] ->
                     slot_of w c = slot_of w' c).
  { intros c Hc. unfold slot_of. now rewrite (Hsame c Hc). }
  run_partially trainerDashboard. unfold fulfilled_or, lift, ret.
  set (svc := services env) in *. clearbody svc.
  destruct (user req) as [| | [|] | n | u | l | fs];
    cbn -[allSettled4 fulfilled_or toISOString todaySchedule In].
  all: try destruct (negb (n =? 0)); try destruct (negb (String.eqb u ""));
    try destruct (strict_eq_str (lookup "role" fs) "trainer");
    try destruct (strict_eq_str (lookup "id" fs) (params_id req));
    cbn -[allSettled4 fulfilled_or toISOString todaySchedule In]; try reflexivity.
  all: rewrite !allSettled4_axios;
    match type of S1 with
    | forall c, In c [?c1; ?c2; ?c3] -> _ =>
        pose proof (S1 c1 (or_introl eq_refl)) as Q1;
        pose proof (S1 c2 (or_intror (or_introl eq_refl))) as Q2;
        pose proof (S1 c3 (or_intror (or_intror (or_introl eq_refl)))) as Q3
    end;
    cbn -[slot_of] in Q1, Q2, Q3; rewrite Q1, Q2, Q3; rewrite ?Hclock;
    repeat (break_match; cbn -[toISOString todaySchedule]; rewrite ?Hclock);
    reflexivity.
Qed.

Lemma trainer_clients_call_unused_witness :
  run (trainerDashboard no_env no_other_dates large_stub anonymous) all_down
  = run (trainerDashboard no_env no_other_dates large_stub anonymous)
      (mkWorld (fun c => if String.eqb (url c) "http://localhost:3001/api/users?role=client&limit=50"
                         then Resolve (mkResponse 200 VNull) else Reject None)
               (fun _ => an_evening)).
Proof.
  apply trainer_clients_call_unused.
  - intros c [<- | [<- | [<- | []]]]; reflexivity.
  - reflexivity.
Defined.

(** In every result, the count of active clients is the length of the list
    of recent programs. *)
(** X10: in every result of the trainer dashboard, [active_clients] is the
    length of the list under [recent_programs]. *)
Theorem active_clients_counts_programs (env : string -> option string)
    (other : string -> option Z) (large : Z -> string) (req : request) (w : world)
    (res : response) (st : state) (items : list value) :
  run (trainerDashboard env other large req) w = (Ok res, st) -> status res = 200 ->
  recent_programs_of res = Ok (VArr items) ->
  active_clients_of res = Ok (VNum (Z.of_nat (List.length items))).
Proof.
  intros H H200 Hrecent.
  unfold_handler_in H trainerDashboard.
  explore H; try impossible; injection H as <- _; try discriminate H200;
    cbn in *; unfold data_data, data_data_length in *.
  all: repeat match goal with
              | H1 : ?x = Ok _, H2 : context [match ?x with _ => _ end] |- _ =>
                  rewrite H1 in H2
              end; injection Hrecent as Hrecent; subst; cbn in *; try congruence.
Qed.

Lemma active_clients_counts_programs_witness :
  exists res st,
    run (trainerDashboard no_env no_other_dates large_stub anonymous)
      (two_up a_profile (VObj [("data", VArr [VObj []; VObj []])])) = (Ok res, st) /\
    active_clients_of res = Ok (VNum 2).
Proof.
  eexists. eexists. split; [vm_compute; reflexivity |].
  eapply (active_clients_counts_programs no_env no_other_dates large_stub anonymous
            (two_up a_profile (VObj [("data", VArr [VObj []; VObj []])])) _ _
            [VObj []; VObj []]);
    [vm_compute; reflexivity | reflexivity | reflexivity].
Defined.

(** ** The proxy hook *)

Lemma header_remove_same (k : string) (hs : list (string * string)) :
  header k (remove_header k hs) = None.
Proof.
  induction hs as [| [k' v] hs IH]; [reflexivity |].
  cbn. destruct (String.eqb k k') eqn:E; [exact IH |]. cbn. now rewrite E.
Qed.

Lemma header_remove_other (k k' : string) (hs : list (string * string)) :
  k <> k' -> header k (remove_header k' hs) = header k hs.
Proof.
  intros Hne. induction hs as [| [k0 v] hs IH]; [reflexivity |].
  cbn. destruct (String.eqb_spec k' k0) as [-> | N].
  - rewrite IH. destruct (String.eqb_spec k k0); [contradiction | reflexivity].
  - cbn. now rewrite IH.
Qed.

Lemma header_set_same (name v : string) (o : outbound) :
  header (lower_string name) (out_headers (setHeader name v o)) = Some v.
Proof. cbn. now rewrite String.eqb_refl. Qed.

Lemma header_set_other (k name v : string) (o : outbound) :
  k <> lower_string name ->
  header k (out_headers (setHeader name v o)) = header k (out_headers o).
Proof.
  intros Hne. cbn. destruct (String.eqb_spec k (lower_string name)); [contradiction |].
  now apply header_remove_other.
Qed.

(** X16: the hook always sets the correlation header and forwards a
    non-empty Authorization header; it writes a body, with the JSON content
    type and the byte length of exactly what it writes, for POST, PUT and
    PATCH requests whose parsed body has keys, and otherwise leaves body,
    length and content type as they came. *)
Theorem onProxyReq_effect (JSON_stringify : value -> string) (byteLength : string -> Z)
    (meth : string) (req : request) (o : outbound) :
  let o' := onProxyReq JSON_stringify byteLength meth req o in
  header "x-correlation-id" (out_headers o') = Some (correlationId req) /\
  (forall h, authorization req = Some h -> h <> "" ->
     header "authorization" (out_headers o') = Some h) /\
  (~ rewrites_body meth \/ has_keys (body req) = false ->
     out_written o' = out_written o /\
     header "content-length" (out_headers o') = header "content-length" (out_headers o) /\
     header "content-type" (out_headers o') = header "content-type" (out_headers o)) /\
  (rewrites_body meth -> has_keys (body req) = true ->
     out_written o'
     = Some (match out_written o with
             | Some sent => sent ++ JSON_stringify (body req)
             | None => JSON_stringify (body req)
             end) /\
     header "content-length" (out_headers o')
     = Some (Z_to_string (byteLength (JSON_stringify (body req)))) /\
     header "content-type" (out_headers o') = Some "application/json").
Proof.
  cbv zeta. unfold onProxyReq. cbv zeta.
  set (o1 := setHeader "X-Correlation-ID" (correlationId req) o).
  set (o2 := match authorization req with
             | Some h => if truthy (VStr h) then setHeader "Authorization" h o1 else o1
             | None => o1
             end).
  assert (C2 : header "x-correlation-id" (out_headers o2) = Some (correlationId req)).
  { subst o2. destruct (authorization req) as [h |]; [destruct (truthy (VStr h)) |];
      try apply (header_set_same "X-Correlation-ID").
    rewrite header_set_other by discriminate. apply (header_set_same "X-Correlation-ID"). }
  assert (A2 : forall h, authorization req = Some h -> h <> "" ->
                 header "authorization" (out_headers o2) = Some h).
  { intros h Hh Hne. subst o2. rewrite Hh.
    replace (truthy (VStr h)) with true
      by (destruct h; [contradiction | reflexivity]).
    apply (header_set_same "Authorization"). }
  assert (W2 : out_written o2 = out_written o).
  { subst o2 o1. destruct (authorization req) as [h |]; [destruct (truthy (VStr h)) |];
      reflexivity. }
  assert (L2 : forall k, k = "content-length" \/ k = "content-type" ->
                 header k (out_headers o2) = header k (out_headers o)).
  { intros k Hk. subst o2 o1.
    destruct (authorization req) as [h |]; [destruct (truthy (VStr h)) |];
      destruct Hk as [-> | ->]; repeat (rewrite header_set_other by discriminate);
      reflexivity. }
  assert (Hk : has_keys (body req) = true -> truthy (body req) = true).
  { destruct (body req) as [| | | | s | l | fs]; cbn; try discriminate; auto. }
  assert (G : (String.eqb meth "POST" || String.eqb meth "PUT" || String.eqb meth "PATCH")
              = true <-> rewrites_body meth).
  { unfold rewrites_body. rewrite !orb_true_iff, !String.eqb_eq. tauto. }
  destruct (has_keys (body req)) eqn:K.
  - rewrite (Hk eq_refl). cbn [andb].
    destruct (String.eqb meth "POST" || String.eqb meth "PUT" || String.eqb meth "PATCH")
      eqn:E.
    + cbn [write out_headers out_written].
      split; [| split; [| split]].
      * repeat (rewrite header_set_other by discriminate). exact C2.
      * intros h Hh Hne. repeat (rewrite header_set_other by discriminate). now apply A2.
      * intros [N | N]; [exfalso; apply N; now apply G | discriminate].
      * intros _ _. split; [| split].
        -- cbn [setHeader out_written]. now rewrite W2.
        -- apply (header_set_same "Content-Length").
        -- rewrite header_set_other by discriminate.
           apply (header_set_same "Content-Type").
    + split; [exact C2 | split; [exact A2 | split]].
      * intros _. split; [exact W2 | split; apply L2; auto].
      * intros R. apply G in R. discriminate.
  - rewrite andb_false_r. cbn [andb].
    split; [exact C2 | split; [exact A2 | split]].
    + intros _. split; [exact W2 | split; apply L2; auto].
    + intros _ E. discriminate.
Qed.

Lemma onProxyReq_effect_witness :
  out_written (onProxyReq stringify_stub length_stub "POST" a_booking (mkOutbound [] None))
  = Some "{}" /\
  header "content-length"
    (out_headers (onProxyReq stringify_stub length_stub "POST" a_booking (mkOutbound [] None)))
  = Some "2".
Proof.
  destruct (proj2 (proj2 (proj2 (onProxyReq_effect stringify_stub length_stub "POST" a_booking
                                   (mkOutbound [] None))))
              (or_introl eq_refl) eq_refl) as (Hw & Hl & _).
  split; [exact Hw | exact Hl].
Defined.

(** ** A record without a date *)

Lemma trainer_filter_failure (env : string -> option string) (other : string -> option Z)
    (large : Z -> string) (req : request) (w : world) (v : response) (e : thrown) :
  fst (run (trainerDashboard env other large req) w)
    <> Ok (forbidden "Cannot access other trainer dashboards") ->
  backend w (trainer_bookings_call env req) = Resolve v ->
  todaySchedule other large (isoDate (clock w O)) (Fulfilled v) = Throw e ->
  run (trainerDashboard env other large req) w
  = (Ok dashboard_error, mkState (trainer_calls env req) 1 [trainer_error_log]).
Proof.
  intros Hnot Hv He.
  remember (run (trainerDashboard env other large req) w) as R eqn:HR.
  unfold trainer_bookings_call in Hv. unfold trainer_calls. cbv zeta.
  unfold_handler_in HR trainerDashboard.
  explore HR; subst R; cbn in Hnot; try impossible; same_today;
    try (exfalso; apply Hnot; reflexivity); try congruence; try reflexivity.
Qed.

(** X11: a booking record with no [booking_date] makes the filter throw,
    and the whole trainer dashboard answers DASHBOARD_ERROR at 500. *)
Theorem missing_date_fails_dashboard (env : string -> option string)
    (other : string -> option Z) (large : Z -> string) (req : request) (w : world)
    (v : response) (items : list value) (b : value) :
  fst (run (trainerDashboard env other large req) w)
    <> Ok (forbidden "Cannot access other trainer dashboards") ->
  backend w (trainer_bookings_call env req) = Resolve v ->
  get (data v) "data" = Ok (VArr items) ->
  In b items -> get b "booking_date" = Ok VUndefined ->
  run (trainerDashboard env other large req) w
  = (Ok dashboard_error, mkState (trainer_calls env req) 1 [trainer_error_log]).
Proof.
  intros Hnot Hv Hd Hin Hb.
  assert (Hthrow : exists e,
            todaySchedule other large (isoDate (clock w O)) (Fulfilled v) = Throw e).
  { unfold todaySchedule. rewrite Hd. apply (filterM_throws _ items b Hin).
    exists RangeError. unfold is_today. now rewrite Hb. }
  destruct Hthrow as [e He].
  now apply (trainer_filter_failure env other large req w v e).
Qed.

Lemma missing_date_fails_dashboard_witness :
  run (trainerDashboard no_env no_other_dates large_stub anonymous)
      (schedule_up [booked "b1" "2026-11-01"; VObj [("id", VStr "b2")]])
  = (Ok dashboard_error, mkState (trainer_calls no_env anonymous) 1 [trainer_error_log]).
Proof.
  apply (missing_date_fails_dashboard no_env no_other_dates large_stub anonymous
           (schedule_up [booked "b1" "2026-11-01"; VObj [("id", VStr "b2")]])
           (mkResponse 200 (VObj [("data", VArr [booked "b1" "2026-11-01";
                                                 VObj [("id", VStr "b2")]])]))
           [booked "b1" "2026-11-01"; VObj [("id", VStr "b2")]]
           (VObj [("id", VStr "b2")])).
  - vm_compute. discriminate.
  - reflexivity.
  - reflexivity.
  - right. left. reflexivity.
  - reflexivity.
Defined.

(** ** Stored dates that are not strings *)

(** X12: the filter's callback on stored dates that are not strings: a
    missing date throws; [null] is read as 1970-01-01; a number is read as
    milliseconds since the epoch, and throws beyond the range of dates. *)
Theorem is_today_other_values (other : string -> option Z) (large : Z -> string)
    (today : string) (b : value) :
  (get b "booking_date" = Ok VUndefined -> is_today other large today b = Throw RangeError) /\
  (get b "booking_date" = Ok VNull ->
   is_today other large today b = Ok (String.eqb (isoDate 0) today)) /\
  (forall n, get b "booking_date" = Ok (VNum n) ->
     is_today other large today b
     = if Z.abs n <=? 8640000000000000 then Ok (String.eqb (isoDate n) today)
       else Throw RangeError).
Proof.
  unfold is_today. repeat split.
  - intros ->. reflexivity.
  - intros ->. cbn [strict_eq_str new_Date].
    destruct (toISOString_Some 0) as [iso Hiso]. rewrite Hiso.
    now rewrite (split_T_0_toISOString 0 iso Hiso).
  - intros n ->. cbn [strict_eq_str new_Date]. unfold TimeClip.
    destruct (Z.abs n <=? 8640000000000000); [| reflexivity].
    destruct (toISOString_Some n) as [iso Hiso]. rewrite Hiso.
    now rewrite (split_T_0_toISOString n iso Hiso).
Qed.

Lemma is_today_other_values_witness :
  is_today no_other_dates large_stub "2026-11-01" (VObj [("id", VStr "b1")])
  = Throw RangeError.
Proof.
  apply (proj1 (is_today_other_values no_other_dates large_stub "2026-11-01"
                  (VObj [("id", VStr "b1")]))).
  reflexivity.
Defined.

(** ** The route table *)

Lemma lower_idem (c : ascii) : lower (lower c) = lower c.
Proof.
  unfold lower. cbv zeta.
  destruct ((65 <=? nat_of_ascii c) && (nat_of_ascii c <=? 90))%nat eqn:E; [| now rewrite E].
  apply andb_true_iff in E. destruct E as [E1 E2].
  apply Nat.leb_le in E1. apply Nat.leb_le in E2.
  rewrite nat_ascii_embedding by lia.
  replace ((65 <=? nat_of_ascii c + 32) && (nat_of_ascii c + 32 <=? 90))%nat with false;
    [reflexivity |].
  symmetry. apply andb_false_iff. right. apply Nat.leb_gt. lia.
Qed.

(** A path a lower-case prefix is mounted on starts, in lower case, with it. *)
Lemma strip_prefix_ci_lower (p path rest : string) :
  lowercase p -> strip_prefix_ci p path = Some rest ->
  exists head, path = head ++ rest /\ lower_string head = p.
Proof.
  revert path. induction p as [| a p IH]; intros path Hp H.
  - injection H as <-. exists "". split; reflexivity.
  - destruct path as [| b path]; [discriminate |].
    cbn in H. destruct (Ascii.eqb_spec (lower a) (lower b)) as [E | E]; [| discriminate].
    unfold lowercase in Hp. cbn in Hp. injection Hp as Ha Hp.
    destruct (IH path Hp H) as (head & -> & Hh).
    exists (String b head). split; [reflexivity |].
    cbn. rewrite Hh. f_equal. congruence.
Qed.

Lemma lower_string_app (a b : string) :
  lower_string (a ++ b) = lower_string a ++ lower_string b.
Proof. induction a as [| c a IH]; cbn; [reflexivity | now rewrite IH]. Qed.

Lemma lower_string_length (a : string) : String.length (lower_string a) = String.length a.
Proof. induction a as [| c a IH]; cbn; [reflexivity | now rewrite IH]. Qed.

Lemma lower_slash (c : ascii) : lower c = "/"%char -> c = "/"%char.
Proof.
  unfold lower. cbv zeta.
  destruct ((65 <=? nat_of_ascii c) && (nat_of_ascii c <=? 90))%nat eqn:E; [| auto].
  apply andb_true_iff in E. destruct E as [E1 E2].
  apply Nat.leb_le in E1. apply Nat.leb_le in E2.
  intros H. apply (f_equal nat_of_ascii) in H.
  rewrite nat_ascii_embedding in H by lia. cbn in H. lia.
Qed.

Lemma strip_prefix_ci_app (a b path rest : string) :
  strip_prefix_ci (a ++ b) path = Some rest ->
  exists mid, strip_prefix_ci a path = Some mid /\ strip_prefix_ci b mid = Some rest.
Proof.
  revert path. induction a as [| c a IH]; intros path H; [cbn in *; eauto |].
  destruct path as [| d path]; [discriminate |].
  cbn in *. destruct (Ascii.eqb (lower c) (lower d)); [now apply IH | discriminate].
Qed.

Lemma strip_prefix_ci_app_intro (a b path mid rest : string) :
  strip_prefix_ci a path = Some mid -> strip_prefix_ci b mid = Some rest ->
  strip_prefix_ci (a ++ b) path = Some rest.
Proof.
  revert path. induction a as [| c a IH]; intros path Ha Hb.
  - cbn in *. now injection Ha as ->.
  - destruct path as [| d path]; [discriminate |].
    cbn in *. destruct (Ascii.eqb (lower c) (lower d)); [now apply IH | discriminate].
Qed.

Lemma strip_prefix_ci_self (p rest : string) : strip_prefix_ci p (p ++ rest) = Some rest.
Proof.
  induction p as [| c p IH]; [reflexivity |].
  cbn. now rewrite Ascii.eqb_refl.
Qed.

(** What comes after a prefix followed by a slash starts with a slash. *)
Lemma strip_slash_boundary (p tail path rest : string) :
  strip_prefix_ci (p ++ String "/" tail) path = Some rest ->
  exists mid, strip_prefix_ci p path = Some mid /\ boundary mid = true.
Proof.
  intros H. apply strip_prefix_ci_app in H. destruct H as (mid & Hp & Hm).
  exists mid. split; [exact Hp |].
  destruct mid as [| c mid]; [reflexivity |].
  cbn in Hm. destruct (Ascii.eqb_spec (lower "/") (lower c)) as [E | E]; [| discriminate].
  cbn. apply Ascii.eqb_eq. apply lower_slash. now rewrite <- E.
Qed.

Lemma route_paths (env : string -> option string) :
  List.map route_path (routes env) = prefixes.
Proof. reflexivity. Qed.

(** Two table prefixes mounted on one path: the shorter one is followed in
    the longer one, if they differ, by a slash. *)
Lemma two_mounts (p q path rp rq : string) :
  lowercase p -> lowercase q ->
  strip_prefix_ci p path = Some rp -> boundary rp = true ->
  strip_prefix_ci q path = Some rq -> boundary rq = true ->
  (String.length p <= String.length q)%nat ->
  p = q \/ startsWith (p ++ "/") q = true.
Proof.
  revert q path. induction p as [| a p IH]; intros q path Lp Lq Hp Bp Hq Bq Hlen.
  - cbn in Hp. injection Hp as <-.
    destruct q as [| b q]; [now left |]. right.
    destruct path as [| c path]; [discriminate |].
    cbn in Hq. destruct (Ascii.eqb_spec (lower b) (lower c)) as [E | E]; [| discriminate].
    cbn in Bp. apply Ascii.eqb_eq in Bp. subst c.
    unfold lowercase in Lq. cbn in Lq. injection Lq as Lb _.
    cbn. rewrite <- Lb, E. reflexivity.
  - destruct q as [| b q]; [cbn in Hlen; lia |].
    destruct path as [| c path]; [discriminate |].
    cbn in Hp, Hq.
    destruct (Ascii.eqb_spec (lower a) (lower c)) as [Ea | Ea]; [| discriminate].
    destruct (Ascii.eqb_spec (lower b) (lower c)) as [Eb | Eb]; [| discriminate].
    unfold lowercase in Lp, Lq. cbn in Lp, Lq.
    injection Lp as La Lp. injection Lq as Lb Lq.
    assert (a = b) by congruence. subst b.
    cbn in Hlen.
    destruct (IH q path Lp Lq Hp Bp Hq Bq ltac:(lia)) as [-> | H].
    + now left.
    + right. cbn. now rewrite Ascii.eqb_refl.
Qed.

Lemma prefixes_apart :
  forallb (fun p => forallb (apart p) prefixes) prefixes = true.
Proof. vm_compute. reflexivity. Qed.

Lemma prefixes_plain :
  forallb (fun p => String.eqb (lower_string p) p && String.eqb (drop_trailing_slash p) p)
    prefixes = true.
Proof. vm_compute. reflexivity. Qed.

Lemma prefix_facts (p : string) :
  In p prefixes -> lowercase p /\ drop_trailing_slash p = p.
Proof.
  intros H. pose proof prefixes_plain as A. rewrite forallb_forall in A.
  specialize (A p H). apply andb_true_iff in A. destruct A as [A1 A2].
  apply String.eqb_eq in A1. apply String.eqb_eq in A2. now split.
Qed.

Lemma prefixes_distinct (p q : string) :
  In p prefixes -> In q prefixes -> p = q \/ startsWith (p ++ "/") q = true -> p = q.
Proof.
  intros Hp Hq [E | E]; [exact E |].
  pose proof prefixes_apart as A. rewrite forallb_forall in A.
  specialize (A p Hp). rewrite forallb_forall in A. specialize (A q Hq).
  unfold apart in A. rewrite E in A. cbn in A. rewrite orb_false_r in A.
  now apply String.eqb_eq.
Qed.

Lemma mounted_once (env : string -> option string) (path : string) (r1 r2 : route) :
  In r1 (routes env) -> In r2 (routes env) ->
  mounts (route_path r1) path = true -> mounts (route_path r2) path = true ->
  r1 = r2.
Proof.
  intros H1 H2 M1 M2.
  assert (P1 : In (route_path r1) prefixes)
    by (rewrite <- (route_paths env); now apply in_map).
  assert (P2 : In (route_path r2) prefixes)
    by (rewrite <- (route_paths env); now apply in_map).
  destruct (prefix_facts _ P1) as [L1 D1]. destruct (prefix_facts _ P2) as [L2 D2].
  unfold mounts in M1, M2. rewrite D1 in M1. rewrite D2 in M2.
  destruct (strip_prefix_ci (route_path r1) path) as [rp |] eqn:S1; [| discriminate].
  destruct (strip_prefix_ci (route_path r2) path) as [rq |] eqn:S2; [| discriminate].
  assert (E : route_path r1 = route_path r2).
  { destruct (Nat.le_ge_cases (String.length (route_path r1)) (String.length (route_path r2))).
    - apply prefixes_distinct; auto. eapply two_mounts; eauto.
    - symmetry. apply prefixes_distinct; auto. eapply two_mounts; eauto. }
  clear - H1 H2 E. unfold routes in H1, H2.
  set (svc := services env) in *. clearbody svc.
  cbn in H1, H2.
  repeat (destruct H1 as [<- | H1]; [
    repeat (destruct H2 as [<- | H2]; [first [reflexivity | discriminate E] |]);
    contradiction |]).
  contradiction.
Qed.

(** X13: no path is under two prefixes of the route table, so the order of
    registration never decides which proxy takes a request. *)
Theorem routes_disjoint (env : string -> option string) (path : string) (r1 r2 : route) :
  In r1 (routes env) -> In r2 (routes env) ->
  mounts (route_path r1) path = true -> mounts (route_path r2) path = true ->
  r1 = r2.
Proof.
  intros H1 H2 M1 M2. exact (mounted_once env path r1 r2 H1 H2 M1 M2).
Qed.

Lemma routes_disjoint_witness :
  mkRoute "/api/bookings" (svc_schedule (services no_env))
  = mkRoute "/api/bookings" "http://localhost:8003".
Proof.
  apply (routes_disjoint no_env "/API/Bookings/123").
  - do 7 right. left. reflexivity.
  - do 7 right. left. reflexivity.
  - reflexivity.
  - reflexivity.
Defined.

Lemma mounts_api (tail path : string) :
  drop_trailing_slash ("/api" ++ String "/" tail) = "/api" ++ String "/" tail ->
  mounts ("/api" ++ String "/" tail) path = true -> mounts "/api/" path = true.
Proof.
  intros D M. unfold mounts in *. rewrite D in M.
  destruct (strip_prefix_ci ("/api" ++ String "/" tail) path) as [rest |] eqn:S;
    [| discriminate].
  destruct (strip_slash_boundary "/api" tail path rest S) as (mid & Hm & Hb).
  change (drop_trailing_slash "/api/") with "/api". now rewrite Hm.
Qed.

Lemma prefixes_under_api :
  forallb (startsWith "/api/") prefixes = true.
Proof. vm_compute. reflexivity. Qed.

(** X14: of the proxies registered from the route table, the one that
    takes a path made of a table prefix and a rest that is empty or starts
    with a slash is that route's; and whatever path a proxy takes is under
    [/api/], where the limiter and the token middleware are mounted. *)
Theorem proxied_paths (env : string -> option string) (r : route) :
  In r (routes env) ->
  (forall rest, boundary rest = true -> proxy_for env (route_path r ++ rest) = Some r) /\
  (forall path, proxy_for env path = Some r ->
     mounts (route_path r) path = true /\ mounts "/api/" path = true).
Proof.
  intros Hr.
  assert (P : In (route_path r) prefixes)
    by (rewrite <- (route_paths env); now apply in_map).
  destruct (prefix_facts _ P) as [L D].
  split.
  - intros rest Hb.
    assert (M : mounts (route_path r) (route_path r ++ rest) = true).
    { unfold mounts. rewrite D, strip_prefix_ci_self. exact Hb. }
    unfold proxy_for.
    destruct (find (fun r0 => mounts (route_path r0) (route_path r ++ rest)) (routes env))
      as [r' |] eqn:F.
    + apply find_some in F. destruct F as [Hr' M'].
      f_equal. now apply (mounted_once env (route_path r ++ rest)).
    + pose proof (find_none _ _ F r Hr) as N. cbn in N. congruence.
  - intros path F. unfold proxy_for in F. apply find_some in F. destruct F as [_ M].
    split; [exact M |].
    pose proof prefixes_under_api as A. rewrite forallb_forall in A.
    specialize (A _ P). apply startsWith_split in A. cbn [String.length] in A.
    remember (substring_from 5 (route_path r)) as tail eqn:Et. clear Et.
    rewrite A in M, D.
    exact (mounts_api tail path D M).
Qed.

Lemma proxied_paths_witness :
  proxy_for no_env "/api/bookings/123" = Some (mkRoute "/api/bookings" "http://localhost:8003").
Proof.
  apply (proj1 (proxied_paths no_env (mkRoute "/api/bookings" "http://localhost:8003")
                  ltac:(do 7 right; left; reflexivity)) "/123").
  reflexivity.
Defined.

(** X15: no proxy is mounted on a path that starts with [/api/dashboard] or
    with [/health]. *)
Theorem dashboards_not_proxied (env : string -> option string) (rest : string) :
  proxy_for env ("/api/dashboard" ++ rest) = None /\
  proxy_for env ("/health" ++ rest) = None.
Proof.
  unfold proxy_for, routes. set (svc := services env). clearbody svc.
  split; reflexivity.
Qed.
